(** * The VQE solver of qsdk (electronic_structure_solvers/vqe_solver.py)

    A shallow embedding of [VQESolver]: construction, [build], [simulate],
    [energy_estimation], [get_rdm] and [_default_optimizer], with the
    collaborators the module imports (mean field, molecular data,
    fermion-to-qubit mapping, ansatz circuits, simulator backend, scipy's
    minimizer) taken as an interface.

    Python objects are dynamically typed: the solver is its attribute
    dictionary ([self.__dict__]), a finite map from attribute names to Python
    values.  Exceptions are results: every operation returns [Ok x] or
    [Raise e] together with the state it leaves behind, so what a raised
    exception leaves mutated is visible. *)

From Stdlib Require Import PrimFloat ZArith NArith.
From stdpp Require Import base option list strings gmap.

Open Scope string_scope.
Set Warnings "-register-all,-inexact-float".

(** ** Exceptions *)

Inductive ExcClass : Type :=
| KeyError
| ValueError
| TypeError
| RuntimeError
| AttributeError
| IndexError
| NotImplementedError
| OtherError (name : string).

Record PyError : Type := MkError { exc_class : ExcClass; exc_msg : string }.

(** [issubclass(c, RuntimeError)] for the built-in classes above. *)
Definition runtime_error_class (c : ExcClass) : bool :=
  match c with
  | RuntimeError | NotImplementedError => true
  | _ => false
  end.

Inductive Res (X : Type) : Type :=
| Ok (x : X)
| Raise (e : PyError).
Arguments Ok {X} x.
Arguments Raise {X} e.

Definition is_ok {X} (r : Res X) : bool :=
  match r with Ok _ => true | Raise _ => false end.

(** ** Python values *)

(** [class Ansatze(Enum)]. *)
Inductive Ansatze : Type := UCCSD | UCC1 | UCC3.

Definition Ansatze_value (a : Ansatze) : Z :=
  match a with UCCSD => 0 | UCC1 => 1 | UCC3 => 2 end.

(** [str(member)] of a plain [Enum]: the text [format] substitutes. *)
Definition Ansatze_str (a : Ansatze) : string :=
  match a with
  | UCCSD => "Ansatze.UCCSD"
  | UCC1 => "Ansatze.UCC1"
  | UCC3 => "Ansatze.UCC3"
  end.

(** An operator descriptor [(spin-orbital index, action)] and a term key, a
    tuple of descriptors: length 0 is the constant, 2 a one-body term, 4 a
    two-body term. *)
Definition LadderOp : Type := N * N.
Definition Key : Type := list LadderOp.

(** The fermionic Hamiltonian as the solver reads it: the terms in the order
    iteration yields them, each with its coefficient. *)
Definition FermionicHamiltonian : Type := list (Key * float).

(** The classes of the objects that the collaborators create. *)
Class ObjTypes : Type := {
  AnsatzObj : Type;     (* instances of [Ansatz] subclasses *)
  MolData : Type;       (* [MolecularData] *)
  QubitOp : Type;       (* the qubit operator the mapping returns *)
  Terms : Type;         (* its [terms] dictionary *)
  Terms_eq_dec :: EqDecision Terms;
  Circuit : Type;
  Backend : Type        (* [agnostic_simulator.Simulator] *)
}.

Section Values.
Context `{ObjTypes}.

Inductive PyVal : Type :=
| VNone
| VBool (b : bool)
| VInt (n : Z)
| VFloat (x : float)
| VStr (s : string)
| VList (xs : list PyVal)
| VDict (kv : list (string * PyVal))
| VSet (members : list Ansatze)          (* [set(Ansatze)] *)
| VEnum (a : Ansatze)
| VAnsatz (a : AnsatzObj)
| VMolData (m : MolData)
| VFermionOp (h : FermionicHamiltonian)
| VQubitOp (q : QubitOp)
| VBackend (b : Backend)
| VDefaultOptimizer                      (* the bound method [self._default_optimizer] *)
| VFunction (name : string)              (* a callable supplied by the user *)
| VObj (name : string).                  (* any other object: molecule, mean field, noise model, array *)

(** Truth value testing.  Objects of the classes above define neither
    [__bool__] nor [__len__], so they are true; so is every [Enum] member. *)
Definition truthy (v : PyVal) : bool :=
  match v with
  | VNone => false
  | VBool b => b
  | VInt n => negb (n =? 0)%Z
  | VFloat x => negb (x =? 0)%float
  | VStr s => negb (String.eqb s "")
  | VList xs => negb (bool_decide (xs = []))
  | VDict kv => negb (bool_decide (kv = []))
  | VSet ms => negb (bool_decide (ms = []))
  | _ => true
  end.

(** [type(v).__name__], as exception messages print it. *)
Definition type_name (v : PyVal) : string :=
  match v with
  | VNone => "NoneType"
  | VBool _ => "bool"
  | VInt _ => "int"
  | VFloat _ => "float"
  | VStr _ => "str"
  | VList _ => "list"
  | VDict _ => "dict"
  | VSet _ => "set"
  | VEnum _ => "Ansatze"
  | VAnsatz _ => "Ansatz"
  | VMolData _ => "MolecularData"
  | VFermionOp _ => "InteractionOperator"
  | VQubitOp _ => "QubitOperator"
  | VBackend _ => "Simulator"
  | VDefaultOptimizer => "method"
  | VFunction _ => "function"
  | VObj name => name
  end.

(** [v != "jw"]: only the string [jw] itself compares equal. *)
Definition ne_str (v : PyVal) (s : string) : bool :=
  match v with
  | VStr s' => negb (String.eqb s' s)
  | _ => true
  end.

(** [v in [Ansatze.UCC1, Ansatze.UCC3]]. *)
Definition is_reduced_ucc (v : PyVal) : bool :=
  match v with
  | VEnum UCC1 | VEnum UCC3 => true
  | _ => false
  end.

(** [d[k]] on a value. *)
Definition subscript (d : PyVal) (k : string) : Res PyVal :=
  match d with
  | VDict kv =>
      match list_find (λ p, p.1 = k) kv with
      | Some (_, (_, v)) => Ok v
      | None => Raise (MkError KeyError k)
      end
  | _ => Raise (MkError TypeError ("'" ++ type_name d ++ "' object is not subscriptable"))
  end.

End Values.

(** ** Collaborators

    The functions and methods the module calls and does not define.  A call
    may raise; a method that mutates its object returns the object as the
    call leaves it, whether it returns or raises. *)

Class Collaborators `{ObjTypes} : Type := {
  (* qsdk.toolboxes.molecular_computation *)
  prepare_mf_RHF : PyVal → Res PyVal;
  MolecularData : PyVal → PyVal → PyVal → Res MolData;
  get_molecular_hamiltonian : MolData → Res PyVal;
  n_qubits : MolData → PyVal;
  n_electrons : MolData → PyVal;
  (* qsdk.toolboxes.qubit_mappings and qsdk.toolboxes.operators *)
  fermion_to_qubit_mapping :
    PyVal (* fermion_operator *) → PyVal (* mapping *) → PyVal (* n_spinorbitals *) →
    PyVal (* n_electrons *) → PyVal (* up_then_down *) → Res QubitOp;
  compress : QubitOp → QubitOp;
  terms : QubitOp → Terms;
  count_qubits : PyVal → Res Z;
  (* qsdk.toolboxes.ansatz_generator *)
  new_UCCSD : PyVal → PyVal → PyVal → PyVal → Res AnsatzObj;
  new_RUCC : Z → Res AnsatzObj;
  set_var_params : AnsatzObj → PyVal → Res PyVal * AnsatzObj;
  build_circuit : AnsatzObj → Res () * AnsatzObj;
  update_var_params : AnsatzObj → PyVal → Res () * AnsatzObj;
  circuit : AnsatzObj → Res Circuit;
  mo_energy_len : AnsatzObj → Res N;      (* [len(ansatz.mf.mo_energy)] *)
  (* agnostic_simulator *)
  new_Simulator : PyVal → PyVal → PyVal → Res Backend;
  get_expectation_value : Backend → PyVal → Circuit → Res float * Backend;
  (* numpy and the formatting of values *)
  np_array : PyVal → PyVal;
  format_7f : float → string;             (* [f"{x:.7f}"] *)
  str_of : PyVal → string;                (* [str(v)] of floats, containers and objects *)
}.

(** ** The state and the monad of the methods *)

Section State.
Context `{Collaborators}.

(** The solver ([self.__dict__]), what was printed, and a log of the
    invocations of the energy estimator: the active Hamiltonian at each call
    (instrumentation that counts evaluations; nothing reads it). *)
Record World : Type := MkWorld {
  attrs : gmap string PyVal;
  stdout : list string;
  estimator_calls : list (option PyVal)
}.

Definition M (X : Type) : Type := World → Res X * World.

#[export] Instance M_ret : MRet M := λ X x w, (Ok x, w).

#[export] Instance M_bind : MBind M := λ X Y f c w,
  match c w with
  | (Ok x, w') => f x w'
  | (Raise e, w') => (Raise e, w')
  end.

Definition raise {X} (c : ExcClass) (msg : string) : M X :=
  λ w, (Raise (MkError c msg), w).

(** [str(v)], the text an f-string or [format] substitutes. *)
Definition py_str (v : PyVal) : string :=
  match v with
  | VNone => "None"
  | VBool true => "True"
  | VBool false => "False"
  | VStr s => s
  | VEnum a => Ansatze_str a
  | _ => str_of v
  end.

(** The outcome of a call to a function of the collaborators. *)
Definition call {X} (r : Res X) : M X := λ w, (r, w).

(** [self.name]. *)
Definition getattr (name : string) : M PyVal := λ w,
  match attrs w !! name with
  | Some v => (Ok v, w)
  | None =>
      (Raise (MkError AttributeError
                ("'VQESolver' object has no attribute '" ++ name ++ "'")), w)
  end.

(** [self.name = v]. *)
Definition setattr (name : string) (v : PyVal) : M () := λ w,
  (Ok (), MkWorld (<[name := v]> (attrs w)) (stdout w) (estimator_calls w)).

Definition print (line : string) : M () := λ w,
  (Ok (), MkWorld (attrs w) (stdout w ++ [line]) (estimator_calls w)).

Definition log_estimator_call : M () := λ w,
  (Ok (), MkWorld (attrs w) (stdout w) (estimator_calls w ++ [attrs w !! "qubit_hamiltonian"])).

(** [v.name] where [v] has no such attribute. *)
Definition no_attribute {X} (v : PyVal) (name : string) : M X :=
  raise AttributeError ("'" ++ type_name v ++ "' object has no attribute '" ++ name ++ "'").

(** ** Construction: [VQESolver.__init__] *)

Definition default_backend_options : PyVal :=
  VDict [("target", VStr "qulacs"); ("n_shots", VNone); ("noise_model", VNone)].

Definition default_options : list (string * PyVal) :=
  [("molecule", VNone); ("mean_field", VNone); ("frozen_orbitals", VList []);
   ("qubit_mapping", VStr "jw"); ("ansatz", VEnum UCCSD);
   ("optimizer", VDefaultOptimizer);
   ("initial_var_params", VNone);
   ("backend_options", default_backend_options);
   ("up_then_down", VBool false);
   ("verbose", VBool false)].

(** [k in default_options]. *)
Definition is_option (k : string) : bool :=
  bool_decide (k ∈ default_options.*1).

(** The loop over [opt_dict.items()]: the first key that is no option raises. *)
Fixpoint overwrite_options (items : list (string * PyVal)) : M () :=
  match items with
  | [] => mret ()
  | (k, v) :: rest =>
      if is_option k
      then setattr k v ;; overwrite_options rest
      else raise KeyError ("Keyword :: " ++ k ++ ", not available in VQESolver")
  end.

Definition init_body (opt_dict : list (string * PyVal)) : M () :=
  overwrite_options opt_dict ;;
  molecule ← getattr "molecule";
  (if negb (truthy molecule)
   then raise ValueError "A molecule object must be provided when instantiating VQESolver"
   else mret ()) ;;
  setattr "optimal_energy" VNone ;;
  setattr "optimal_var_params" VNone ;;
  setattr "builtin_ansatze" (VSet [UCCSD; UCC1; UCC3]).

(** [VQESolver(opt_dict)]: the new object, or the exception; an object whose
    construction raised is never bound. *)
Definition __init__ (opt_dict : list (string * PyVal)) : Res (gmap string PyVal) :=
  match init_body opt_dict (MkWorld (list_to_map default_options) [] []) with
  | (Ok _, w) => Ok (attrs w)
  | (Raise e, _) => Raise e
  end.

End State.

(** ** numpy arrays of floats

    [np.zeros((n,) * d)]: the size [n] of every axis and the cells written so
    far; a cell never written reads as zero.  Indices are naturals, so an
    index is in bounds when it is below [n]. *)

Record ndarray (K : Type) `{Countable K} : Type := MkArray {
  nd_size : N;
  nd_cells : gmap K float
}.
Arguments MkArray {K _ _} nd_size nd_cells.
Arguments nd_size {K _ _} _.
Arguments nd_cells {K _ _} _.

Definition Index2 : Type := N * N.
Definition Index4 : Type := N * N * N * N.

Definition np_zeros {K} `{Countable K} (n : N) : ndarray K := MkArray n ∅.

(** [a[idx]]. *)
Definition nd_get {K} `{Countable K} (a : ndarray K) (idx : K) : float :=
  default 0%float (nd_cells a !! idx).

Definition in_bounds2 (n : N) (idx : Index2) : bool :=
  let '(i, j) := idx in (i <? n)%N && (j <? n)%N.

Definition in_bounds4 (n : N) (idx : Index4) : bool :=
  let '(i, j, k, l) := idx in (i <? n)%N && (j <? n)%N && (k <? n)%N && (l <? n)%N.

Definition index_error : PyError := MkError IndexError "index is out of bounds".

(** [a[idx] += x], given the bounds test of the array's rank. *)
Definition nd_iadd {K} `{Countable K} (in_bounds : N → K → bool)
    (a : ndarray K) (idx : K) (x : float) : Res (ndarray K) :=
  if in_bounds (nd_size a) idx
  then Ok (MkArray (nd_size a) (<[idx := (nd_get a idx + x)%float]> (nd_cells a)))
  else Raise index_error.

(** ** The solver's methods *)

(** [scipy.optimize.OptimizeResult], the fields the solver reads. *)
Record OptimizeResult `{ObjTypes} : Type := MkResult {
  res_x : PyVal;
  res_fun : float;
  res_nfev : Z
}.
Arguments MkResult {_} res_x res_fun res_nfev.

(** The callables that receive the energy estimator: scipy's [minimize]
    (objective, initial point, method, options) and the optimizers the user
    supplies, by name. *)
Class Optimizers `{Collaborators} : Type := {
  minimize : (PyVal → M float) → PyVal → string → PyVal → M OptimizeResult;
  call_function : string → (PyVal → M float) → PyVal → M PyVal
}.

Section Methods.
Context `{Optimizers}.

Definition tab : string := String (Ascii.ascii_of_nat 9) EmptyString.
Definition newline : string := String (Ascii.ascii_of_nat 10) EmptyString.

(** *** [build] *)

(** Lines 82-93: mean field, molecular data and the two Hamiltonians. *)
Definition build_hamiltonians : M () :=
  mean_field ← getattr "mean_field";
  (if negb (truthy mean_field)
   then molecule ← getattr "molecule";
        mf ← call (prepare_mf_RHF molecule);
        setattr "mean_field" mf
   else mret ()) ;;
  molecule ← getattr "molecule";
  mean_field ← getattr "mean_field";
  frozen_orbitals ← getattr "frozen_orbitals";
  qemist_molecule ← call (MolecularData molecule mean_field frozen_orbitals);
  setattr "qemist_molecule" (VMolData qemist_molecule) ;;
  fermionic_hamiltonian ← call (get_molecular_hamiltonian qemist_molecule);
  setattr "fermionic_hamiltonian" fermionic_hamiltonian ;;
  qubit_mapping ← getattr "qubit_mapping";
  up_then_down ← getattr "up_then_down";
  qubit_hamiltonian ← call (fermion_to_qubit_mapping fermionic_hamiltonian qubit_mapping
                              (n_qubits qemist_molecule) (n_electrons qemist_molecule)
                              up_then_down);
  setattr "qubit_hamiltonian" (VQubitOp qubit_hamiltonian).

Definition msg_mapping (ansatz : PyVal) : string :=
  "Qubit mapping must be JW for " ++ py_str ansatz ++ " ansatz.".
Definition msg_up_then_down (ansatz : PyVal) : string :=
  "Parameter up_then_down must be set to True for " ++ py_str ansatz ++ " ansatz.".
Definition msg_homo_lumo (ansatz : PyVal) : string :=
  "The system must be reduced to a HOMO-LUMO problem for " ++ py_str ansatz ++ " ansatz.".

(** Lines 95-105: the verification of UCC1 and UCC3. *)
Definition check_reduced_ucc : M () :=
  ansatz ← getattr "ansatz";
  if is_reduced_ucc ansatz then
    qubit_mapping ← getattr "qubit_mapping";
    (if ne_str qubit_mapping "jw"
     then raise ValueError (msg_mapping ansatz) else mret ()) ;;
    up_then_down ← getattr "up_then_down";
    (if negb (truthy up_then_down)
     then raise ValueError (msg_up_then_down ansatz) else mret ()) ;;
    qubit_hamiltonian ← getattr "qubit_hamiltonian";
    n ← call (count_qubits qubit_hamiltonian);
    (if negb (n =? 4)%Z
     then raise ValueError (msg_homo_lumo ansatz) else mret ())
  else mret ().

(** Lines 107-121: the ansatz object, its parameters and its circuit. *)
Definition build_ansatz : M () :=
  ansatz ← getattr "ansatz";
  match ansatz with
  | VEnum a =>
      obj ← match a with
            | UCCSD =>
                qemist_molecule ← getattr "qemist_molecule";
                qubit_mapping ← getattr "qubit_mapping";
                mean_field ← getattr "mean_field";
                up_then_down ← getattr "up_then_down";
                call (new_UCCSD qemist_molecule qubit_mapping mean_field up_then_down)
            | UCC1 => call (new_RUCC 1)
            | UCC3 => call (new_RUCC 3)
            end;
      setattr "ansatz" (VAnsatz obj)
  | VAnsatz _ => mret ()
  | _ =>
      builtin ← getattr "builtin_ansatze";
      raise TypeError ("Invalid ansatz dataype. Expecting instance of Ansatz class, or one of built-in options:"
                         ++ newline ++ tab ++ py_str builtin)
  end ;;
  ansatz ← getattr "ansatz";
  match ansatz with
  | VAnsatz a =>
      initial_var_params ← getattr "initial_var_params";
      let '(r, a1) := set_var_params a initial_var_params in
      setattr "ansatz" (VAnsatz a1) ;;
      params ← call r;
      setattr "initial_var_params" params ;;
      let '(r, a2) := build_circuit a1 in
      setattr "ansatz" (VAnsatz a2) ;;
      call r
  | v => no_attribute v "set_var_params"
  end.

(** Lines 123-125: the simulation backend. *)
Definition build_backend : M () :=
  backend_options ← getattr "backend_options";
  target ← call (subscript backend_options "target");
  n_shots ← call (subscript backend_options "n_shots");
  noise_model ← call (subscript backend_options "noise_model");
  backend ← call (new_Simulator target n_shots noise_model);
  setattr "backend" (VBackend backend).

Definition build : M () :=
  build_hamiltonians ;; check_reduced_ucc ;; build_ansatz ;; build_backend.

(** *** [energy_estimation] *)

Definition energy_estimation (var_params : PyVal) : M float :=
  log_estimator_call ;;
  ansatz ← getattr "ansatz";
  match ansatz with
  | VAnsatz a =>
      let '(r, a') := update_var_params a (np_array var_params) in
      setattr "ansatz" (VAnsatz a') ;;
      call r
  | v => no_attribute v "update_var_params"
  end ;;
  backend ← getattr "backend";
  energy ← match backend with
           | VBackend b =>
               qubit_hamiltonian ← getattr "qubit_hamiltonian";
               ansatz ← getattr "ansatz";
               c ← match ansatz with
                   | VAnsatz a => call (circuit a)
                   | v => no_attribute v "circuit"
                   end;
               let '(r, b') := get_expectation_value b qubit_hamiltonian c in
               setattr "backend" (VBackend b') ;;
               call r
           | v => no_attribute v "get_expectation_value"
           end;
  verbose ← getattr "verbose";
  (if truthy verbose
   then print (tab ++ "Energy = " ++ format_7f energy ++ " ")
   else mret ()) ;;
  mret energy.

(** *** [_default_optimizer] *)

Definition slsqp_options : PyVal :=
  VDict [("disp", VBool true); ("maxiter", VInt 2000);
         ("eps", VFloat 1e-5); ("ftol", VFloat 1e-5)].

Definition _default_optimizer (func : PyVal → M float) (var_params : PyVal) : M PyVal :=
  result ← minimize func var_params "SLSQP" slsqp_options;
  setattr "optimal_var_params" (res_x result) ;;
  setattr "optimal_energy" (VFloat (res_fun result)) ;;
  verbose ← getattr "verbose";
  (if truthy verbose
   then
     optimal_energy ← getattr "optimal_energy";
     print (tab ++ tab ++ "Optimal UCCSD energy: " ++ py_str optimal_energy) ;;
     optimal_var_params ← getattr "optimal_var_params";
     print (tab ++ tab ++ "Optimal UCCSD variational parameters: " ++ py_str optimal_var_params) ;;
     print (tab ++ tab ++ "Number of Function Evaluations : " ++ py_str (VInt (res_nfev result)))
   else mret ()) ;;
  mret (VFloat (res_fun result)).

(** *** [simulate] *)

Definition msg_not_built : string :=
  "No ansatz circuit or hardware backend built. Have you called VQESolver.build ?".

(** [optimizer(func, var_params)]. *)
Definition call_optimizer (optimizer : PyVal) (func : PyVal → M float) (var_params : PyVal) : M PyVal :=
  match optimizer with
  | VDefaultOptimizer => _default_optimizer func var_params
  | VFunction name => call_function name func var_params
  | v => raise TypeError ("'" ++ type_name v ++ "' object is not callable")
  end.

Definition simulate : M PyVal :=
  ansatz ← getattr "ansatz";
  (* [self.ansatz and self.backend]: the backend is read only when the ansatz is true *)
  built ← (if truthy ansatz
           then backend ← getattr "backend"; mret (truthy backend)
           else mret false);
  (if negb built then raise RuntimeError msg_not_built else mret ()) ;;
  optimizer ← getattr "optimizer";
  initial_var_params ← getattr "initial_var_params";
  call_optimizer optimizer energy_estimation initial_var_params.

(** *** [get_rdm] *)

(** The local variables of [get_rdm] that the loop updates. *)
Record RdmLocals : Type := MkLocals {
  rdm1_np : ndarray Index2;
  rdm2_np : ndarray Index4;
  lookup_ham : list Terms;
  lookup_val : list float
}.

(** [int(ele[0]) // 2]. *)
Definition orbital (ele : LadderOp) : N := (ele.1 / 2)%N.

(** Lines 206-208: the copy of the Hamiltonian in which every coefficient is
    overwritten, by [1.] on the current key unless it is the first, by [0.]
    elsewhere. *)
Definition select_term (ikey : nat) (key : Key) (h : FermionicHamiltonian) : FermionicHamiltonian :=
  map (λ term : Key * float,
         (term.1, if bool_decide (key = term.1) && negb (ikey =? 0)%nat
                  then 1%float else 0%float)) h.


(** Lines 218-225: the energy of the term, from the lookup lists or from the
    estimator. *)
Definition term_energy (var_params : PyVal) (qubit_hamiltonian2 : QubitOp)
    (st : RdmLocals) : M (float * RdmLocals) :=
  match list_find (λ t, t = terms qubit_hamiltonian2) (lookup_ham st) with
  | Some (i, _) =>
      match lookup_val st !! i with
      | Some opt_energy2 => mret (opt_energy2, st)
      | None => raise IndexError "list index out of range"
      end
  | None =>
      setattr "qubit_hamiltonian" (VQubitOp qubit_hamiltonian2) ;;
      opt_energy2 ← energy_estimation var_params;
      mret (opt_energy2,
            MkLocals (rdm1_np st) (rdm2_np st)
                     (lookup_ham st ++ [terms qubit_hamiltonian2])
                     (lookup_val st ++ [opt_energy2]))
  end.

(** Lines 227-235: the contribution of the term to the matrices. *)
Definition accumulate (key : Key) (opt_energy2 : float) (st : RdmLocals) : Res RdmLocals :=
  match key with
  | [a; b] =>
      let iele := orbital a in
      let jele := orbital b in
      match nd_iadd in_bounds2 (rdm1_np st) (iele, jele) opt_energy2 with
      | Ok rdm1 => Ok (MkLocals rdm1 (rdm2_np st) (lookup_ham st) (lookup_val st))
      | Raise e => Raise e
      end
  | [a; b; c; d] =>
      let iele := orbital a in
      let jele := orbital b in
      let kele := orbital c in
      let lele := orbital d in
      if negb (bool_decide (iele = lele)) || negb (bool_decide (jele = kele)) then
        match nd_iadd in_bounds4 (rdm2_np st) (lele, iele, kele, jele) (0.5 * opt_energy2)%float with
        | Ok rdm2 =>
            match nd_iadd in_bounds4 rdm2 (iele, lele, jele, kele) (0.5 * opt_energy2)%float with
            | Ok rdm2' => Ok (MkLocals (rdm1_np st) rdm2' (lookup_ham st) (lookup_val st))
            | Raise e => Raise e
            end
        | Raise e => Raise e
        end
      else
        match nd_iadd in_bounds4 (rdm2_np st) (iele, lele, jele, kele) opt_energy2 with
        | Ok rdm2 => Ok (MkLocals (rdm1_np st) rdm2 (lookup_ham st) (lookup_val st))
        | Raise e => Raise e
        end
  | _ => Ok st
  end.

(** Lines 210-216: the qubit form of the selected term, compressed. *)
Definition map_term (hamiltonian_temp : PyVal) : M QubitOp :=
  qubit_mapping ← getattr "qubit_mapping";
  qemist_molecule ← getattr "qemist_molecule";
  n_spinorbitals ← match qemist_molecule with
                   | VMolData m => mret (n_qubits m)
                   | v => no_attribute v "n_qubits"
                   end;
  qemist_molecule ← getattr "qemist_molecule";
  n_elec ← match qemist_molecule with
           | VMolData m => mret (n_electrons m)
           | v => no_attribute v "n_electrons"
           end;
  up_then_down ← getattr "up_then_down";
  qubit_hamiltonian2 ← call (fermion_to_qubit_mapping hamiltonian_temp qubit_mapping
                               n_spinorbitals n_elec up_then_down);
  mret (compress qubit_hamiltonian2).

(** The body of the loop, lines 195-235, for the key at position [ikey]. *)
Definition rdm_iteration (var_params : PyVal) (ikey : nat) (key : Key)
    (st : RdmLocals) : M RdmLocals :=
  match key with
  | [] => mret st
  | _ =>
      fermionic_hamiltonian ← getattr "fermionic_hamiltonian";
      hamiltonian_temp ← match fermionic_hamiltonian with
                         | VFermionOp h => mret (VFermionOp (select_term ikey key h))
                         | v => raise TypeError ("'" ++ type_name v ++ "' object is not iterable")
                         end;
      qubit_hamiltonian2 ← map_term hamiltonian_temp;
      '(opt_energy2, st1) ← term_energy var_params qubit_hamiltonian2 st;
      call (accumulate key opt_energy2 st1)
  end.

(** [for ikey, key in enumerate(...)], from position [ikey] on. *)
Fixpoint rdm_loop (var_params : PyVal) (ikey : nat) (keys : list Key)
    (st : RdmLocals) : M RdmLocals :=
  match keys with
  | [] => mret st
  | key :: rest =>
      st' ← rdm_iteration var_params ikey key st;
      rdm_loop var_params (S ikey) rest st'
  end.

Definition get_rdm (var_params : PyVal) : M (ndarray Index2 * ndarray Index4) :=
  tmp_hamiltonian ← getattr "qubit_hamiltonian";
  ansatz ← getattr "ansatz";
  n_mol_orbitals ← match ansatz with
                   | VAnsatz a => call (mo_energy_len a)
                   | v => no_attribute v "mf"
                   end;
  fermionic_hamiltonian ← getattr "fermionic_hamiltonian";
  keys ← match fermionic_hamiltonian with
         | VFermionOp h => mret h.*1
         | v => raise TypeError ("'" ++ type_name v ++ "' object is not iterable")
         end;
  st ← rdm_loop var_params 0 keys
         (MkLocals (np_zeros n_mol_orbitals) (np_zeros n_mol_orbitals) [] []);
  setattr "qubit_hamiltonian" tmp_hamiltonian ;;
  mret (rdm1_np st, rdm2_np st).

End Methods.

(** *** [get_resources] *)

(** What [get_resources] reads of the circuit and of the operator, and the
    length of the objects whose class is not modelled. *)
Class CircuitInfo `{Collaborators} : Type := {
  terms_len : Terms → Z;                  (* [len(terms)] *)
  circuit_width : Circuit → PyVal;
  circuit_size : Circuit → PyVal;
  circuit_counts : Circuit → PyVal;       (* the dictionary from gate names to counts *)
  n_variational_gates : Circuit → Z;      (* [len(circuit._variational_gates)] *)
  obj_len : string → Res Z                (* [len(o)] of an object by name *)
}.

Section Resources.
Context `{CircuitInfo}.

(** [len(v)]. *)
Definition py_len (v : PyVal) : Res Z :=
  match v with
  | VStr s => Ok (Z.of_nat (String.length s))
  | VList xs => Ok (Z.of_nat (length xs))
  | VDict kv => Ok (Z.of_nat (length kv))
  | VSet ms => Ok (Z.of_nat (length ms))
  | VObj name => obj_len name
  | _ => Raise (MkError TypeError ("object of type '" ++ type_name v ++ "' has no len()"))
  end.

(** [self.ansatz.circuit]. *)
Definition ansatz_circuit : M Circuit :=
  ansatz ← getattr "ansatz";
  match ansatz with
  | VAnsatz a => call (circuit a)
  | v => no_attribute v "circuit"
  end.

Definition get_resources : M PyVal :=
  qubit_hamiltonian ← getattr "qubit_hamiltonian";
  n_terms ← match qubit_hamiltonian with
            | VQubitOp q => mret (VInt (terms_len (terms q)))
            | v => no_attribute v "terms"
            end;
  c ← ansatz_circuit;
  let width := circuit_width c in
  c ← ansatz_circuit;
  let size := circuit_size c in
  c ← ansatz_circuit;
  n_cnot ← call (subscript (circuit_counts c) "CNOT");
  c ← ansatz_circuit;
  let n_var_gates := VInt (n_variational_gates c) in
  initial_var_params ← getattr "initial_var_params";
  n_params ← call (py_len initial_var_params);
  mret (VDict [("qubit_hamiltonian_terms", n_terms);
               ("circuit_width", width);
               ("circuit_gates", size);
               ("circuit_2qubit_gates", n_cnot);
               ("circuit_var_gates", n_var_gates);
               ("vqe_variational_parameters", VInt n_params)]).

End Resources.

(** * Test doubles

    A small concrete world on which the methods run: the collaborators of a
    two-orbital molecule.  The qubit operator of a Hamiltonian is the list of
    its keys with a non-zero coefficient; its term structure forgets spin;
    the backend adds one per term to the sum of the circuit's parameters, and
    a backend built with a noise model raises on every evaluation. *)

Record ToyAnsatz : Type := MkToyAnsatz {
  toy_n_var_params : nat;
  toy_var_params : list float;
  toy_has_mf : bool
}.

#[export] Instance toy_types : ObjTypes := {|
  AnsatzObj := ToyAnsatz;
  MolData := FermionicHamiltonian;
  QubitOp := list Key;
  Terms := list (list N);
  Circuit := list float;
  Backend := bool
|}.

(** Constant, four one-body terms and three two-body terms on spin-orbitals
    0 to 3. *)
Definition toy_hamiltonian : FermionicHamiltonian :=
  [([], 0.7%float);
   ([(0, 1); (0, 0)], (-1.25)%float);
   ([(1, 1); (1, 0)], (-1.25)%float);
   ([(2, 1); (2, 0)], (-0.5)%float);
   ([(3, 1); (3, 0)], (-0.5)%float);
   ([(0, 1); (1, 1); (1, 0); (0, 0)], 0.33%float);
   ([(0, 1); (1, 1); (3, 0); (2, 0)], 0.09%float);
   ([(0, 1); (2, 1); (2, 0); (0, 0)], 0.17%float)]%N.

Definition toy_floats (v : PyVal) : option (list float) :=
  match v with
  | VList xs => mapM (λ x, match x with VFloat f => Some f | _ => None end) xs
  | _ => None
  end.

Definition toy_set_var_params (a : ToyAnsatz) (v : PyVal) : Res PyVal * ToyAnsatz :=
  match v with
  | VNone =>
      let zeros := replicate (toy_n_var_params a) 0%float in
      (Ok (VList (VFloat <$> zeros)), MkToyAnsatz (toy_n_var_params a) zeros (toy_has_mf a))
  | _ =>
      match toy_floats v with
      | Some xs =>
          if bool_decide (length xs = toy_n_var_params a)
          then (Ok v, MkToyAnsatz (toy_n_var_params a) xs (toy_has_mf a))
          else (Raise (MkError ValueError "Unexpected number of variational parameters."), a)
      | None => (Raise (MkError ValueError "Unsupported variational parameters."), a)
      end
  end.

Definition toy_mapping (fermion_operator mapping : PyVal) : Res (list Key) :=
  match fermion_operator, mapping with
  | VFermionOp h, VStr name =>
      if bool_decide (name ∈ ["jw"; "bk"; "scbk"])
      then Ok (filter (λ term : Key * float, (term.2 =? 0)%float = false) h).*1
      else Raise (MkError ValueError "Requested mapping type is not supported.")
  | _, _ => Raise (MkError TypeError "Unsupported operator or mapping.")
  end.

Definition toy_count_qubits (v : PyVal) : Res Z :=
  match v with
  | VQubitOp q => Ok (Z.of_N (foldr N.max 0%N ((λ ele : LadderOp, N.succ ele.1) <$> concat q)))
  | _ => Raise (MkError TypeError "Operator of invalid type.")
  end.

Definition toy_expectation (b : bool) (h : PyVal) (c : list float) : Res float * bool :=
  if b then
    (Ok (foldr PrimFloat.add
               (match h with
                | VQubitOp q => foldr (λ _ acc, acc + 1)%float 0%float q
                | _ => 0%float
                end) c), b)
  else (Raise (MkError (OtherError "BackendError") "The noisy backend is not available."), b).

#[export] Instance toy_collaborators : Collaborators := {|
  prepare_mf_RHF := λ _, Ok (VObj "RHF");
  MolecularData := λ _ _ _, Ok toy_hamiltonian;
  get_molecular_hamiltonian := λ m, Ok (VFermionOp m);
  n_qubits := λ _, VInt 4;
  n_electrons := λ _, VInt 2;
  fermion_to_qubit_mapping := λ op mapping _ _ _, toy_mapping op mapping;
  compress := λ q, q;
  terms := λ q, map (λ key : Key, map orbital key) q;
  count_qubits := toy_count_qubits;
  new_UCCSD := λ _ _ _ _, Ok (MkToyAnsatz 2 [] true);
  new_RUCC := λ n, Ok (MkToyAnsatz (Z.to_nat n) [] false);
  set_var_params := toy_set_var_params;
  build_circuit := λ a, (Ok (), a);
  update_var_params := λ a v,
    let '(r, a') := toy_set_var_params a v in
    (match r with Ok _ => Ok () | Raise e => Raise e end, a');
  circuit := λ a, Ok (toy_var_params a);
  mo_energy_len := λ a,
    if toy_has_mf a then Ok 2%N
    else Raise (MkError AttributeError "'RUCC' object has no attribute 'mf'");
  new_Simulator := λ _ _ noise_model,
    Ok (match noise_model with VNone => true | _ => false end);
  get_expectation_value := toy_expectation;
  np_array := λ v, v;
  format_7f := λ _, "<float>";
  str_of := λ v, "<" ++ type_name v ++ ">"
|}.

(** A minimizer that evaluates the objective once, at the initial point. *)
#[export] Instance toy_optimizers : Optimizers := {|
  minimize := λ func x0 _ _, energy ← func x0; mret (MkResult x0 energy 1);
  call_function := λ _ func x0, energy ← func x0; mret (VFloat energy)
|}.

(** The circuit of the toy ansatz: one variational gate per parameter and
    a CNOT between neighbours. *)
#[export] Instance toy_circuit_info : CircuitInfo := {|
  terms_len := λ t, Z.of_nat (length t);
  circuit_width := λ _, VInt 4;
  circuit_size := λ c, VInt (Z.of_nat (2 * length c - 1));
  circuit_counts := λ c,
    match c with
    | [] | [_] => VDict [("RZ", VInt (Z.of_nat (length c)))]
    | _ => VDict [("RZ", VInt (Z.of_nat (length c))); ("CNOT", VInt (Z.of_nat (length c - 1)))]
    end;
  n_variational_gates := λ c, Z.of_nat (length c);
  obj_len := λ name, Raise (MkError TypeError ("object of type '" ++ name ++ "' has no len()"))
|}.

(** A solver as [__init__] leaves it, and the world [build] leaves. *)
Definition toy_new (opt_dict : list (string * PyVal)) : World :=
  match __init__ opt_dict with
  | Ok d => MkWorld d [] []
  | Raise _ => MkWorld ∅ [] []
  end.

Definition toy_built (opt_dict : list (string * PyVal)) : World :=
  (build (toy_new opt_dict)).2.

(** The value of a result that is known to be [Ok]. *)
Definition toy_ok {X} (r : Res X) (default : X) : X :=
  match r with Ok x => x | Raise _ => default end.

(** The local variables of [get_rdm] when the loop starts, for two orbitals. *)
Definition toy_locals : RdmLocals := MkLocals (np_zeros 2) (np_zeros 2) [] [].

(** A solver for the toy molecule before and after [build], one with the
    restricted ansatz, and parameters for the two-parameter circuit. *)
Definition toy_h2 : World := toy_new [("molecule", VObj "H2")].

Definition toy_ucc1 (up_then_down : bool) : World :=
  toy_new [("molecule", VObj "H2"); ("ansatz", VEnum UCC1);
           ("up_then_down", VBool up_then_down)].

Definition toy_h2_built : World := toy_built [("molecule", VObj "H2")].

Definition toy_params : PyVal := VList [VFloat 1; VFloat 2].

(** The toy Hamiltonian with every coefficient replaced by 1. *)
Definition toy_unit_hamiltonian : FermionicHamiltonian :=
  map (λ term : Key * float, (term.1, 1%float)) toy_hamiltonian.


(** * Predicates of the statements

    The relations between worlds and the conditions in which the theorems
    below are stated. *)

Section Predicates.
Context `{Optimizers}.

(** A computation is stable for a relation between worlds when every run,
    returning or raising, ends in a world related to the one it started in. *)
Definition stable {X} (R : relation World) (m : M X) : Prop :=
  ∀ w, R w (m w).2.

(** The attributes in [keep] hold the same values. *)
Definition same_attrs (keep : string → Prop) : relation World :=
  λ w w', ∀ k, keep k → attrs w' !! k = attrs w !! k.

(** The log of estimator calls is the same. *)
Definition same_calls : relation World :=
  λ w w', estimator_calls w' = estimator_calls w.

(** What the estimator prints for an energy. *)
Definition energy_lines (verbose : PyVal) (energy : float) : list string :=
  if truthy verbose then [tab ++ "Energy = " ++ format_7f energy ++ " "] else [].

(** The facts that make a call of the estimator return [energy], and the
    world it leaves: the ansatz holds the new parameters, the backend is as
    the evaluation left it, the line is printed, the call is logged. *)
Inductive estimation (var_params : PyVal) (w : World) (energy : float) (w' : World) : Prop :=
| Estimation (a a' : AnsatzObj) (b b' : Backend) (hamiltonian : PyVal) (c : Circuit)
    (verbose : PyVal)
    (Hansatz : attrs w !! "ansatz" = Some (VAnsatz a))
    (Hupdate : update_var_params a (np_array var_params) = (Ok (), a'))
    (Hbackend : attrs w !! "backend" = Some (VBackend b))
    (Hhamiltonian : attrs w !! "qubit_hamiltonian" = Some hamiltonian)
    (Hcircuit : circuit a' = Ok c)
    (Hvalue : get_expectation_value b hamiltonian c = (Ok energy, b'))
    (Hverbose : attrs w !! "verbose" = Some verbose)
    (Hworld :
       w' = MkWorld (<["backend" := VBackend b']> (<["ansatz" := VAnsatz a']> (attrs w)))
                    (stdout w ++ energy_lines verbose energy)
                    (estimator_calls w ++ [attrs w !! "qubit_hamiltonian"])).

(** The attributes [build] does not assign before it builds the ansatz. *)
Definition configuration (k : string) : Prop :=
  k ≠ "mean_field" ∧ k ≠ "qemist_molecule" ∧
  k ≠ "fermionic_hamiltonian" ∧ k ≠ "qubit_hamiltonian".

(** The message of the first check that fails, in the order of the source. *)
Definition violation_msg (a : Ansatze) (mapping flag : PyVal) : string :=
  if ne_str mapping "jw" then msg_mapping (VEnum a)
  else if negb (truthy flag) then msg_up_then_down (VEnum a)
  else msg_homo_lumo (VEnum a).

(** The contribution of the term [key], of energy [e], to the matrices:
    [rdm1'] and [rdm2'] are [rdm1] and [rdm2] after lines 227-235. *)
Definition contribution (key : Key) (e : float)
    (rdm1 : ndarray Index2) (rdm2 : ndarray Index4)
    (rdm1' : ndarray Index2) (rdm2' : ndarray Index4) : Prop :=
  match key with
  | [a; b] =>
      rdm2' = rdm2 ∧
      nd_get rdm1' (orbital a, orbital b) = (nd_get rdm1 (orbital a, orbital b) + e)%float ∧
      ∀ idx, idx ≠ (orbital a, orbital b) → nd_get rdm1' idx = nd_get rdm1 idx
  | [a; b; c; d] =>
      let i := orbital a in
      let j := orbital b in
      let k := orbital c in
      let l := orbital d in
      rdm1' = rdm1 ∧
      if decide (i ≠ l ∨ j ≠ k) then
        nd_get rdm2' (l, i, k, j) = (nd_get rdm2 (l, i, k, j) + 0.5 * e)%float ∧
        nd_get rdm2' (i, l, j, k) = (nd_get rdm2 (i, l, j, k) + 0.5 * e)%float ∧
        ∀ idx, idx ≠ (l, i, k, j) → idx ≠ (i, l, j, k) → nd_get rdm2' idx = nd_get rdm2 idx
      else
        nd_get rdm2' (i, l, j, k) = (nd_get rdm2 (i, l, j, k) + e)%float ∧
        ∀ idx, idx ≠ (i, l, j, k) → nd_get rdm2' idx = nd_get rdm2 idx
  | _ => rdm1' = rdm1 ∧ rdm2' = rdm2
  end.

(** While [get_rdm] runs, the active Hamiltonian is the one of the start or
    a qubit operator substituted for a term. *)
Definition swapped : relation World := λ w w',
  attrs w' !! "qubit_hamiltonian" = attrs w !! "qubit_hamiltonian" ∨
  ∃ q, attrs w' !! "qubit_hamiltonian" = Some (VQubitOp q).

End Predicates.

(** ** Predicates of the further properties *)

Section MorePredicates.
Context `{Optimizers}.

(** The attributes that [build] never assigns. *)
Definition build_untouched (k : string) : Prop :=
  k ≠ "mean_field" ∧ k ≠ "qemist_molecule" ∧ k ≠ "fermionic_hamiltonian" ∧
  k ≠ "qubit_hamiltonian" ∧ k ≠ "ansatz" ∧ k ≠ "initial_var_params" ∧ k ≠ "backend".

(** [build] up to the construction of the backend (lines 82-121). *)
Definition build_objects : M () :=
  build_hamiltonians ;; check_reduced_ucc ;; build_ansatz.

(** The keys of [backend_options] that [build] reads and the dictionary lacks. *)
Definition missing_backend_options (kv : list (string * PyVal)) : list string :=
  filter (λ k, k ∉ kv.*1) ["target"; "n_shots"; "noise_model"].

(** A value that is neither a member of [Ansatze] nor an [Ansatz] object. *)
Definition not_an_ansatz (v : PyVal) : Prop :=
  match v with
  | VEnum _ | VAnsatz _ => False
  | _ => True
  end.

(** The data flow of lines 82-93, when they return. *)
Inductive hamiltonians_built (w w1 : World) : Prop :=
| HamiltoniansBuilt (molecule given_mf mean_field frozen_orbitals : PyVal) (m : MolData)
    (fermionic mapping flag : PyVal) (q : QubitOp)
    (Hmolecule : attrs w !! "molecule" = Some molecule)
    (Hgiven : attrs w !! "mean_field" = Some given_mf)
    (Hmf : if truthy given_mf then mean_field = given_mf
           else prepare_mf_RHF molecule = Ok mean_field)
    (Hfrozen : attrs w !! "frozen_orbitals" = Some frozen_orbitals)
    (Hdata : MolecularData molecule mean_field frozen_orbitals = Ok m)
    (Hfermionic : get_molecular_hamiltonian m = Ok fermionic)
    (Hmapping : attrs w !! "qubit_mapping" = Some mapping)
    (Hflag : attrs w !! "up_then_down" = Some flag)
    (Hqubit : fermion_to_qubit_mapping fermionic mapping (n_qubits m) (n_electrons m) flag
              = Ok q)
    (Hmf1 : attrs w1 !! "mean_field" = Some mean_field)
    (Hm1 : attrs w1 !! "qemist_molecule" = Some (VMolData m))
    (Hf1 : attrs w1 !! "fermionic_hamiltonian" = Some fermionic)
    (Hq1 : attrs w1 !! "qubit_hamiltonian" = Some (VQubitOp q)).

(** The attributes that [get_rdm] never assigns and that the estimator
    leaves. *)
Definition rdm_untouched (k : string) : Prop :=
  k ≠ "ansatz" ∧ k ≠ "backend" ∧ k ≠ "qubit_hamiltonian".

(** Every cell written lies within the size of the array. *)
Definition cells_in_bounds {K} `{Countable K} (in_bounds : N → K → bool) (a : ndarray K) : Prop :=
  ∀ idx, is_Some (nd_cells a !! idx) → in_bounds (nd_size a) idx = true.

(** What was printed is the same. *)
Definition same_out : relation World :=
  λ w w', stdout w' = stdout w.

(** The world in which the attribute [k] holds [v]. *)
Definition with_attr (k : string) (v : PyVal) (w : World) : World :=
  MkWorld (<[k := v]> (attrs w)) (stdout w) (estimator_calls w).

(** A computation ignores the attribute [k] when it runs in the same way
    whatever [k] holds, and leaves in [k] what it found. *)
Definition ignores {X} (k : string) (m : M X) : Prop :=
  ∀ v w, m (with_attr k v w) = ((m w).1, with_attr k v (m w).2).

(** What the default optimizer prints for a result. *)
Definition optimum_lines (verbose : PyVal) (result : OptimizeResult) : list string :=
  if truthy verbose
  then [tab ++ tab ++ "Optimal UCCSD energy: " ++ py_str (VFloat (res_fun result));
        tab ++ tab ++ "Optimal UCCSD variational parameters: " ++ py_str (res_x result);
        tab ++ tab ++ "Number of Function Evaluations : " ++ py_str (VInt (res_nfev result))]
  else [].

End MorePredicates.

(** * Reasoning about the methods *)

Section Frames.
Context `{Optimizers}.

Lemma bind_unfold {X Y} (c : M X) (f : X → M Y) (w : World) :
  (c ≫= f) w = match c w with
               | (Ok x, w') => f x w'
               | (Raise e, w') => (Raise e, w')
               end.
Proof. reflexivity. Qed.

Lemma stable_run {X} (R : relation World) (m : M X) w r w' :
  stable R m → m w = (r, w') → R w w'.
Proof. intros Hm Hrun. specialize (Hm w). by rewrite Hrun in Hm. Qed.

Lemma stable_ret {X} (R : relation World) `{!Reflexive R} (x : X) : stable R (mret x).
Proof. intros w. simpl. reflexivity. Qed.

Lemma stable_raise {X} (R : relation World) `{!Reflexive R} c msg : stable R (raise c msg : M X).
Proof. intros w. simpl. reflexivity. Qed.

Lemma stable_call {X} (R : relation World) `{!Reflexive R} (r : Res X) : stable R (call r).
Proof. intros w. simpl. reflexivity. Qed.

Lemma stable_getattr (R : relation World) `{!Reflexive R} name : stable R (getattr name).
Proof. intros w. unfold getattr. destruct (attrs w !! name); simpl; reflexivity. Qed.

Lemma stable_no_attribute {X} (R : relation World) `{!Reflexive R} v name :
  stable R (no_attribute v name : M X).
Proof. apply stable_raise, _. Qed.

Lemma stable_bind {X Y} (R : relation World) `{!Transitive R} (c : M X) (f : X → M Y) :
  stable R c → (∀ x, stable R (f x)) → stable R (c ≫= f).
Proof.
  intros Hc Hf w. rewrite bind_unfold.
  specialize (Hc w). destruct (c w) as [[x|e] w1]; simpl in *.
  - transitivity w1; [done | apply Hf].
  - done.
Qed.

#[export] Instance same_attrs_preorder keep : PreOrder (same_attrs keep).
Proof.
  split.
  - by intros w k _.
  - intros w1 w2 w3 H12 H23 k Hk. by rewrite H23, H12.
Qed.

Lemma stable_setattr_other keep name v :
  ¬ keep name → stable (same_attrs keep) (setattr name v).
Proof.
  intros Hname w k Hk. simpl.
  apply lookup_insert_ne. by intros ->.
Qed.

Lemma stable_print_attrs keep line : stable (same_attrs keep) (print line).
Proof. by intros w k _. Qed.

Lemma stable_log_attrs keep : stable (same_attrs keep) log_estimator_call.
Proof. by intros w k _. Qed.

#[export] Instance same_calls_preorder : PreOrder same_calls.
Proof.
  split.
  - by intros w.
  - intros w1 w2 w3 H12 H23. unfold same_calls in *. congruence.
Qed.

Lemma stable_setattr_calls name v : stable same_calls (setattr name v).
Proof. by intros w. Qed.

Lemma stable_print_calls line : stable same_calls (print line).
Proof. by intros w. Qed.

End Frames.

(** One step of a stability proof: split a bind, decide a leaf, or take the
    cases of a branch. *)
Ltac stable_step :=
  lazymatch goal with
  | |- stable _ (mbind _ _) => apply stable_bind; [apply _ | | intros ?]
  | |- stable _ (mret _) => apply stable_ret, _
  | |- stable _ (raise _ _) => apply stable_raise, _
  | |- stable _ (call _) => apply stable_call, _
  | |- stable _ (getattr _) => apply stable_getattr, _
  | |- stable _ (no_attribute _ _) => apply stable_no_attribute, _
  | |- stable (same_attrs _) (print _) => apply stable_print_attrs
  | |- stable (same_attrs _) log_estimator_call => apply stable_log_attrs
  | |- stable (same_attrs _) (setattr _ _) => apply stable_setattr_other; by intros [? ?]
  | |- stable same_calls (print _) => apply stable_print_calls
  | |- stable same_calls (setattr _ _) => apply stable_setattr_calls
  | |- stable _ (match ?x with _ => _ end) => destruct x
  end.


(** * Construction *)

Section Construction.
Context `{ObjTypes}.

Lemma getattr_some name v (w : World) :
  attrs w !! name = Some v → getattr name w = (Ok v, w).
Proof. intros Hv. unfold getattr. by rewrite Hv. Qed.

Lemma getattr_none name (w : World) :
  attrs w !! name = None →
  getattr name w =
    (Raise (MkError AttributeError ("'VQESolver' object has no attribute '" ++ name ++ "'")), w).
Proof. intros Hv. unfold getattr. by rewrite Hv. Qed.





End Construction.



(** * The energy estimator *)

Section Estimator.
Context `{Optimizers}.

Lemma bind_ok_inv {X Y} (c : M X) (f : X → M Y) w y w2 :
  (c ≫= f) w = (Ok y, w2) → ∃ x w1, c w = (Ok x, w1) ∧ f x w1 = (Ok y, w2).
Proof.
  rewrite bind_unfold. destruct (c w) as [[x|e] w1]; [eauto | discriminate].
Qed.

Lemma getattr_ok_inv name (w : World) v w1 :
  getattr name w = (Ok v, w1) → attrs w !! name = Some v ∧ w1 = w.
Proof. unfold getattr. destruct (attrs w !! name); intros [= <- <-]; done. Qed.

Lemma call_ok_inv {X} (r : Res X) (w : World) x w1 :
  call r w = (Ok x, w1) → r = Ok x ∧ w1 = w.
Proof. unfold call. by intros [= -> ->]. Qed.

Lemma energy_estimation_ok var_params w energy w' :
  energy_estimation var_params w = (Ok energy, w') ↔ estimation var_params w energy w'.
Proof.
  split.
  - unfold energy_estimation. intros Hrun.
    apply bind_ok_inv in Hrun as ([] & w0 & Hlog & Hrun).
    injection Hlog as <-.
    apply bind_ok_inv in Hrun as (ansatz & ? & [Hansatz ->]%getattr_ok_inv & Hrun).
    apply bind_ok_inv in Hrun as ([] & w1 & Hupd & Hrun).
    destruct ansatz; try discriminate.
    destruct (update_var_params a (np_array var_params)) as [r a'] eqn:Ha.
    apply bind_ok_inv in Hupd as ([] & ? & [= <-] & [-> ->]%call_ok_inv).
    apply bind_ok_inv in Hrun as (backend & ? & [Hbackend ->]%getattr_ok_inv & Hrun).
    apply bind_ok_inv in Hrun as (e & w2 & Hval & Hrun).
    destruct backend; try discriminate.
    apply bind_ok_inv in Hval as (qh & ? & [Hqh ->]%getattr_ok_inv & Hval).
    apply bind_ok_inv in Hval as (ansatz & ? & [Hansatz2 ->]%getattr_ok_inv & Hval).
    apply bind_ok_inv in Hval as (c & ? & Hc & Hval).
    cbn [attrs] in *.
    rewrite lookup_insert_eq in Hansatz2. injection Hansatz2 as <-.
    apply call_ok_inv in Hc as [Hc ->].
    destruct (get_expectation_value b qh c) as [r b'] eqn:Hb.
    apply bind_ok_inv in Hval as ([] & ? & [= <-] & [-> ->]%call_ok_inv).
    apply bind_ok_inv in Hrun as (verbose & ? & [Hverbose ->]%getattr_ok_inv & Hrun).
    apply bind_ok_inv in Hrun as ([] & w3 & Hprint & [= <- <-]).
    cbn [attrs] in *.
    rewrite lookup_insert_ne in Hbackend by done.
    rewrite lookup_insert_ne in Hqh by done.
    rewrite !lookup_insert_ne in Hverbose by done.
    econstructor; eauto.
    unfold energy_lines. destruct (truthy verbose).
    + injection Hprint as <-. done.
    + injection Hprint as <-. cbn. by rewrite app_nil_r.
  - intros [a a' b b' qh c verbose Ha Hupd Hb Hqh Hc Hval Hverbose ->].
    unfold energy_estimation.
    rewrite bind_unfold. cbn [log_estimator_call].
    rewrite bind_unfold. unfold getattr at 1. cbn [attrs]. rewrite Ha.
    rewrite bind_unfold, Hupd. rewrite bind_unfold. cbn [setattr call attrs stdout estimator_calls].
    rewrite bind_unfold. unfold getattr at 1. cbn [attrs].
    rewrite lookup_insert_ne, Hb by done.
    rewrite bind_unfold. rewrite bind_unfold. unfold getattr at 1. cbn [attrs].
    rewrite lookup_insert_ne, Hqh by done.
    rewrite bind_unfold. unfold getattr at 1. cbn [attrs].
    rewrite lookup_insert_eq.
    rewrite bind_unfold. cbn [call]. rewrite Hc, Hval.
    rewrite bind_unfold. cbn [setattr call attrs stdout estimator_calls].
    rewrite bind_unfold. unfold getattr at 1. cbn [attrs].
    rewrite !lookup_insert_ne, Hverbose by done.
    rewrite bind_unfold. unfold energy_lines.
    destruct (truthy verbose); cbn; [done | by rewrite app_nil_r].
Qed.

(** [energy_estimation] assigns no attribute of the solver; the objects it
    mutates in place are the ansatz (its parameters) and the backend. *)
Lemma energy_estimation_frame var_params :
  stable (same_attrs (λ k, k ≠ "ansatz" ∧ k ≠ "backend")) (energy_estimation var_params).
Proof. unfold energy_estimation. repeat stable_step. Qed.

(** Every call is logged once, whether it returns or raises. *)
Lemma energy_estimation_calls var_params (w : World) :
  estimator_calls (energy_estimation var_params w).2 =
    (estimator_calls w ++ [attrs w !! "qubit_hamiltonian"])%list.
Proof.
  unfold energy_estimation. rewrite bind_unfold. cbn [log_estimator_call].
  match goal with
  | |- estimator_calls (?rest ?w0).2 = _ =>
      assert (Hrest : stable same_calls rest) by repeat stable_step;
      exact (Hrest w0)
  end.
Qed.

(** C9.  A call of [energy_estimation], returning or raising, leaves
    [optimal_energy], [optimal_var_params], [initial_var_params],
    [qubit_hamiltonian] and [fermionic_hamiltonian] as they were. *)
Theorem energy_estimation_keeps_fields var_params (w : World) :
  attrs (energy_estimation var_params w).2 !! "optimal_energy" = attrs w !! "optimal_energy" ∧
  attrs (energy_estimation var_params w).2 !! "optimal_var_params" = attrs w !! "optimal_var_params" ∧
  attrs (energy_estimation var_params w).2 !! "initial_var_params" = attrs w !! "initial_var_params" ∧
  attrs (energy_estimation var_params w).2 !! "qubit_hamiltonian" = attrs w !! "qubit_hamiltonian" ∧
  attrs (energy_estimation var_params w).2 !! "fermionic_hamiltonian" = attrs w !! "fermionic_hamiltonian".
Proof.
  pose proof (energy_estimation_frame var_params w) as Hframe.
  split_and!; by apply Hframe.
Qed.

(** C2, as amended.  On a solver without a backend (no [build] has
    completed) [energy_estimation] makes no check of its own and fails at the
    first attribute it misses: with an [AttributeError] for
    [update_var_params] when the ansatz field is not an ansatz object (as
    after construction), else with the error of the ansatz's own update or
    with the [AttributeError] for the missing backend.  [simulate] raises the
    [RuntimeError] that asks for [build] when the ansatz field is false. *)
Theorem energy_estimation_unbuilt var_params (w : World) :
  attrs w !! "backend" = None →
  (∃ e w', energy_estimation var_params w = (Raise e, w') ∧
     match attrs w !! "ansatz" with
     | Some (VAnsatz a) =>
         match (update_var_params a (np_array var_params)).1 with
         | Raise e' => e = e'
         | Ok _ => e = MkError AttributeError "'VQESolver' object has no attribute 'backend'"
         end
     | Some v =>
         e = MkError AttributeError
               ("'" ++ type_name v ++ "' object has no attribute 'update_var_params'")
     | None => e = MkError AttributeError "'VQESolver' object has no attribute 'ansatz'"
     end)
  ∧ (∀ v, attrs w !! "ansatz" = Some v → truthy v = false →
       simulate w = (Raise (MkError RuntimeError msg_not_built), w)).
Proof.
  intros Hb. split.
  - unfold energy_estimation. rewrite bind_unfold. cbn [log_estimator_call].
    rewrite bind_unfold. unfold getattr at 1. cbn [attrs].
    destruct (attrs w !! "ansatz") as [v|] eqn:Hv.
    2:{ eexists _, _. split; reflexivity. }
    destruct v; try (rewrite bind_unfold; eexists _, _; split; reflexivity).
    rewrite bind_unfold.
    destruct (update_var_params a (np_array var_params)) as [r a'] eqn:Hupd.
    rewrite bind_unfold. cbn [setattr attrs stdout estimator_calls fst snd call].
    destruct r as [[]|e].
    + rewrite bind_unfold. unfold getattr at 1. cbn [attrs].
      rewrite lookup_insert_ne, Hb by done.
      eexists _, _. split; reflexivity.
    + eexists _, _. split; reflexivity.
  - intros v Hv Hfalse. unfold simulate.
    rewrite bind_unfold, (getattr_some _ _ _ Hv).
    rewrite bind_unfold, Hfalse. cbn. reflexivity.
Qed.


End Estimator.

(** C2: a solver just constructed, never built.  The estimator raises an
    [AttributeError], and so does [simulate]: its test reads the backend,
    which does not exist yet. *)
Lemma unbuilt_solver_attribute_errors :
  (energy_estimation (VList [VFloat 1; VFloat 2]) (toy_new [("molecule", VObj "H2")])).1 =
    Raise (MkError AttributeError "'Ansatze' object has no attribute 'update_var_params'")
  ∧ (simulate (toy_new [("molecule", VObj "H2")])).1 =
      Raise (MkError AttributeError "'VQESolver' object has no attribute 'backend'")
  ∧ runtime_error_class AttributeError = false.
Proof. split_and!; reflexivity. Qed.

Lemma energy_estimation_unbuilt_witness :
  (∃ e w', energy_estimation (VList [VFloat 1; VFloat 2]) (toy_new [("molecule", VObj "H2")])
           = (Raise e, w') ∧
           e = MkError AttributeError "'Ansatze' object has no attribute 'update_var_params'")
  ∧ simulate (toy_new [("molecule", VObj "H2"); ("ansatz", VNone)]) =
      (Raise (MkError RuntimeError msg_not_built),
       toy_new [("molecule", VObj "H2"); ("ansatz", VNone)]).
Proof.
  split.
  - apply (proj1 (energy_estimation_unbuilt (VList [VFloat 1; VFloat 2])
                    (toy_new [("molecule", VObj "H2")]) eq_refl)).
  - apply (proj2 (energy_estimation_unbuilt VNone
                    (toy_new [("molecule", VObj "H2"); ("ansatz", VNone)]) eq_refl)
             VNone eq_refl eq_refl).
Defined.




(** * The optimizer *)

Section Simulate.
Context `{Optimizers}.

(** The default optimizer returns what the minimizer found and records it. *)
Lemma default_optimizer_ok func var_params (w w' : World) v :
  _default_optimizer func var_params w = (Ok v, w') →
  ∃ result w1,
    minimize func var_params "SLSQP" slsqp_options w = (Ok result, w1) ∧
    v = VFloat (res_fun result) ∧
    attrs w' = <["optimal_energy" := VFloat (res_fun result)]>
                 (<["optimal_var_params" := res_x result]> (attrs w1)).
Proof.
  unfold _default_optimizer. intros Hrun.
  apply bind_ok_inv in Hrun as (result & w1 & Hmin & Hrun).
  apply bind_ok_inv in Hrun as ([] & ? & [= <-] & Hrun).
  apply bind_ok_inv in Hrun as ([] & ? & [= <-] & Hrun).
  apply bind_ok_inv in Hrun as (verbose & ? & [_ ->]%getattr_ok_inv & Hrun).
  apply bind_ok_inv in Hrun as ([] & w2 & Hprint & [= <- <-]).
  exists result, w1. split_and!; [done..|].
  match type of Hprint with
  | ?m ?w0 = _ =>
      assert (Hst : stable (same_attrs (λ _, True)) m)
  end.
  { destruct (truthy verbose); repeat stable_step. }
  apply stable_run with (1 := Hst) in Hprint.
  apply map_eq. intros k. by rewrite (Hprint k I).
Qed.

(** C10.  A call of [simulate] with the default optimizer that returns does
    so with the minimizer's [fun]; the same call has stored that value in
    [optimal_energy] and the minimizer's [x] in [optimal_var_params],
    whatever the two fields held before. *)
Theorem simulate_records_optimum (w w' : World) (v : PyVal) :
  attrs w !! "optimizer" = Some VDefaultOptimizer →
  simulate w = (Ok v, w') →
  ∃ initial_var_params result w1,
    attrs w !! "initial_var_params" = Some initial_var_params ∧
    minimize energy_estimation initial_var_params "SLSQP" slsqp_options w = (Ok result, w1) ∧
    v = VFloat (res_fun result) ∧
    attrs w' !! "optimal_energy" = Some v ∧
    attrs w' !! "optimal_var_params" = Some (res_x result).
Proof.
  intros Hopt. unfold simulate. intros Hrun.
  apply bind_ok_inv in Hrun as (ansatz & ? & [_ ->]%getattr_ok_inv & Hrun).
  apply bind_ok_inv in Hrun as (built & w0 & Hbuilt & Hrun).
  assert (w0 = w) as ->.
  { destruct (truthy ansatz).
    - apply bind_ok_inv in Hbuilt as (? & ? & [_ ->]%getattr_ok_inv & [= _ <-]). done.
    - by injection Hbuilt as _ <-. }
  apply bind_ok_inv in Hrun as ([] & ? & Hguard & Hrun).
  destruct (negb built); [discriminate|]. injection Hguard as <-.
  apply bind_ok_inv in Hrun as (optimizer & ? & [Hoptimizer ->]%getattr_ok_inv & Hrun).
  apply bind_ok_inv in Hrun as (ivp & ? & [Hivp ->]%getattr_ok_inv & Hrun).
  rewrite Hopt in Hoptimizer. injection Hoptimizer as <-.
  apply default_optimizer_ok in Hrun as (result & w1 & Hmin & -> & Hattrs).
  exists ivp, result, w1. split_and!; [done..| |].
  - rewrite Hattrs. apply lookup_insert_eq.
  - rewrite Hattrs. rewrite lookup_insert_ne by done. apply lookup_insert_eq.
Qed.
End Simulate.

Lemma simulate_records_optimum_witness :
  ∃ initial_var_params result w1,
    attrs (toy_built [("molecule", VObj "H2")]) !! "initial_var_params" = Some initial_var_params ∧
    minimize energy_estimation initial_var_params "SLSQP" slsqp_options
      (toy_built [("molecule", VObj "H2")]) = (Ok result, w1) ∧
    VFloat 8 = VFloat (res_fun result) ∧
    attrs (simulate (toy_built [("molecule", VObj "H2")])).2 !! "optimal_energy" = Some (VFloat 8) ∧
    attrs (simulate (toy_built [("molecule", VObj "H2")])).2 !! "optimal_var_params" = Some (res_x result).
Proof.
  apply (simulate_records_optimum (toy_built [("molecule", VObj "H2")])).
  - reflexivity.
  - vm_compute. reflexivity.
Defined.

(** * Building the solver *)

Section Build.
Context `{Optimizers}.

Lemma build_hamiltonians_frame : stable (same_attrs configuration) build_hamiltonians.
Proof.
  unfold build_hamiltonians.
  repeat first
    [ stable_step
    | apply stable_setattr_other; unfold configuration; by intros (? & ? & ? & ?) ].
Qed.


(** Each of the three messages ends with the name of the ansatz. *)
Lemma violation_msg_names_ansatz (a : Ansatze) (mapping flag : PyVal) :
  ∃ constraint, violation_msg a mapping flag = constraint ++ Ansatze_str a ++ " ansatz.".
Proof.
  unfold violation_msg, msg_mapping, msg_up_then_down, msg_homo_lumo.
  destruct (ne_str mapping "jw"); [by eexists|].
  destruct (negb (truthy flag)); by eexists.
Qed.

End Build.


(** * The reduced density matrices *)

Section Selection.






End Selection.


Section Rdm.
Context `{Optimizers}.

Lemma bind_inv {X Y} (c : M X) (f : X → M Y) w r w' :
  (c ≫= f) w = (r, w') →
  (∃ e, c w = (Raise e, w') ∧ r = Raise e) ∨
  (∃ x w1, c w = (Ok x, w1) ∧ f x w1 = (r, w')).
Proof.
  rewrite bind_unfold. destruct (c w) as [[x|e] w1].
  - intros Hf. right. eauto.
  - intros [= <- <-]. left. eauto.
Qed.

(** [a[idx] += x] adds at [idx] and nowhere else. *)
Lemma nd_iadd_ok {K} `{Countable K} in_bounds (a a' : ndarray K) (idx : K) (x : float) :
  nd_iadd in_bounds a idx x = Ok a' →
  nd_get a' idx = (nd_get a idx + x)%float ∧
  ∀ idx', idx' ≠ idx → nd_get a' idx' = nd_get a idx'.
Proof.
  unfold nd_iadd. destruct (in_bounds _ _); [|done]. intros [= <-].
  unfold nd_get. cbn. split.
  - by rewrite lookup_insert_eq.
  - intros idx' Hne. by rewrite lookup_insert_ne.
Qed.

Lemma accumulate_ok (key : Key) (e : float) (st st' : RdmLocals) :
  accumulate key e st = Ok st' →
  lookup_ham st' = lookup_ham st ∧ lookup_val st' = lookup_val st ∧
  contribution key e (rdm1_np st) (rdm2_np st) (rdm1_np st') (rdm2_np st').
Proof.
  unfold accumulate, contribution.
  destruct key as [|a [|b [|c [|d [|? ?]]]]]; try (intros [= <-]; done).
  - destruct (nd_iadd in_bounds2 _ _ _) as [rdm1|] eqn:Hadd; [|done].
    intros [= <-]. cbn. apply nd_iadd_ok in Hadd as [Hat Hother]. done.
  - cbn zeta.
    destruct (decide (orbital a ≠ orbital d ∨ orbital b ≠ orbital c)) as [Hsplit|Hsame].
    + assert (negb (bool_decide (orbital a = orbital d))
              || negb (bool_decide (orbital b = orbital c)) = true) as ->.
      { destruct Hsplit as [Hne|Hne].
        - by rewrite (bool_decide_eq_false_2 _ Hne).
        - rewrite (bool_decide_eq_false_2 _ Hne). apply orb_true_r. }
      destruct (nd_iadd in_bounds4 (rdm2_np st) _ _) as [rdm2|] eqn:Hadd1; [|done].
      destruct (nd_iadd in_bounds4 rdm2 _ _) as [rdm2'|] eqn:Hadd2; [|done].
      intros [= <-]. cbn.
      apply nd_iadd_ok in Hadd1 as [Hat1 Hother1].
      apply nd_iadd_ok in Hadd2 as [Hat2 Hother2].
      assert (Hdistinct : (orbital d, orbital a, orbital c, orbital b)
                          ≠ (orbital a, orbital d, orbital b, orbital c)).
      { intros [= Hda _ Hcb _]. destruct Hsplit; congruence. }
      split_and!; [done..| | |].
      * by rewrite Hother2, Hat1.
      * by rewrite Hat2, Hother1.
      * intros idx Hne1 Hne2. by rewrite Hother2, Hother1.
    + assert (negb (bool_decide (orbital a = orbital d))
              || negb (bool_decide (orbital b = orbital c)) = false) as ->.
      { destruct (decide (orbital a = orbital d)) as [Hil|Hil];
          [|exfalso; apply Hsame; by left].
        destruct (decide (orbital b = orbital c)) as [Hjk|Hjk];
          [|exfalso; apply Hsame; by right].
        by rewrite !bool_decide_eq_true_2. }
      destruct (nd_iadd in_bounds4 (rdm2_np st) _ _) as [rdm2|] eqn:Hadd; [|done].
      intros [= <-]. cbn. apply nd_iadd_ok in Hadd as [Hat Hother]. done.
Qed.

(** What a lookup of the term's structure decides. *)
Lemma term_energy_hit var_params q (st : RdmLocals) (w : World) i t :
  list_find (λ t, t = terms q) (lookup_ham st) = Some (i, t) →
  term_energy var_params q st w =
    (match lookup_val st !! i with
     | Some e => Ok (e, st)
     | None => Raise (MkError IndexError "list index out of range")
     end, w).
Proof.
  intros Hfind. unfold term_energy. rewrite Hfind.
  by destruct (lookup_val st !! i).
Qed.

Lemma term_energy_miss var_params q (st : RdmLocals) (w : World) :
  list_find (λ t, t = terms q) (lookup_ham st) = None →
  estimator_calls (term_energy var_params q st w).2
    = (estimator_calls w ++ [Some (VQubitOp q)])%list ∧
  attrs (term_energy var_params q st w).2 !! "qubit_hamiltonian" = Some (VQubitOp q) ∧
  ∀ e st' w',
    term_energy var_params q st w = (Ok (e, st'), w') →
    lookup_ham st' = (lookup_ham st ++ [terms q])%list ∧
    lookup_val st' = (lookup_val st ++ [e])%list ∧
    rdm1_np st' = rdm1_np st ∧ rdm2_np st' = rdm2_np st.
Proof.
  intros Hfind. unfold term_energy. rewrite Hfind.
  rewrite bind_unfold. cbn [setattr].
  set (w1 := MkWorld (<["qubit_hamiltonian" := VQubitOp q]> (attrs w)) (stdout w)
                     (estimator_calls w)).
  pose proof (energy_estimation_calls var_params w1) as Hcalls.
  pose proof (energy_estimation_frame var_params w1 "qubit_hamiltonian") as Hframe.
  rewrite bind_unfold.
  destruct (energy_estimation var_params w1) as [[e|err] w2]; cbn in *.
  - rewrite Hcalls, Hframe, lookup_insert_eq by done. split_and!; [done..|].
    by intros e' st' w' [= <- <- <-].
  - rewrite Hcalls, Hframe, lookup_insert_eq by done. split_and!; [done..|].
    intros e' st' w'. discriminate.
Qed.

(** The mapping of the selected term reads attributes and calls the mapping:
    it leaves the world as it is. *)
Lemma map_term_pure hamiltonian_temp : stable eq (map_term hamiltonian_temp).
Proof. unfold map_term. repeat stable_step. Qed.

(** One pass of the loop on a non-empty key: it raises before any energy is
    looked up, or it maps the selected term, takes its energy and
    accumulates it. *)
Lemma rdm_iteration_inv var_params ikey key st (w : World) r w' :
  key ≠ [] →
  rdm_iteration var_params ikey key st w = (r, w') →
  (w' = w ∧ ∃ e, r = Raise e) ∨
  ∃ h q rt,
    attrs w !! "fermionic_hamiltonian" = Some (VFermionOp h) ∧
    map_term (VFermionOp (select_term ikey key h)) w = (Ok q, w) ∧
    term_energy var_params q st w = (rt, w') ∧
    r = match rt with
        | Ok (e, st1) => accumulate key e st1
        | Raise err => Raise err
        end.
Proof.
  intros Hkey. unfold rdm_iteration. destruct key as [|a key]; [done|].
  intros Hrun.
  apply bind_inv in Hrun as [(e & Hget & ->)|(fh & w0 & Hget & Hrun)].
  { left. split; [|by eexists].
    unfold getattr in Hget. destruct (attrs w !! _); by injection Hget. }
  apply getattr_ok_inv in Hget as [Hfh ->].
  apply bind_inv in Hrun as [(e & Htemp & ->)|(temp & w0 & Htemp & Hrun)].
  { left. split; [|by eexists]. destruct fh; by injection Htemp. }
  destruct fh; try discriminate. injection Htemp as <- <-.
  apply bind_inv in Hrun as [(e & Hmap & ->)|(q & w0 & Hmap & Hrun)].
  { left. split; [|by eexists].
    symmetry. exact (stable_run _ _ _ _ _ (map_term_pure _) Hmap). }
  pose proof (stable_run _ _ _ _ _ (map_term_pure _) Hmap) as <-.
  right. exists h, q.
  apply bind_inv in Hrun as [(e & Hterm & ->)|([e st1] & w1 & Hterm & Hrun)].
  - exists (Raise e). done.
  - unfold call in Hrun. injection Hrun as <- <-.
    exists (Ok (e, st1)). done.
Qed.

(** The log of estimator calls while the loop runs: the calls made so far
    are those of the structures in the lookup list, each once. *)
Lemma rdm_iteration_calls var_params ikey key st (w : World) r w' calls0 new :
  estimator_calls w = (calls0 ++ ((λ q, Some (VQubitOp q)) <$> new))%list →
  terms <$> new = lookup_ham st →
  NoDup (lookup_ham st) →
  rdm_iteration var_params ikey key st w = (r, w') →
  ∃ new',
    estimator_calls w' = (calls0 ++ ((λ q, Some (VQubitOp q)) <$> new'))%list ∧
    NoDup (terms <$> new') ∧
    ∀ st', r = Ok st' → terms <$> new' = lookup_ham st'.
Proof.
  intros Hcalls Hnew Hnodup Hrun.
  destruct (decide (key = [])) as [->|Hkey].
  { injection Hrun as <- <-. exists new. rewrite Hnew. split_and!; [done..|].
    by intros st' [= <-]. }
  apply rdm_iteration_inv in Hrun as [[-> [e ->]]|(h & q & rt & _ & _ & Hterm & ->)];
    [| |done].
  { exists new. rewrite Hnew. split_and!; done. }
  destruct (list_find (λ t, t = terms q) (lookup_ham st)) as [[i t]|] eqn:Hfind.
  - rewrite (term_energy_hit _ _ _ _ _ _ Hfind) in Hterm. injection Hterm as <- <-.
    exists new. rewrite Hnew. split_and!; [done..|].
    intros st'. destruct (lookup_val st !! i); [|done].
    intros Hacc. by apply accumulate_ok in Hacc as (-> & _ & _).
  - destruct (term_energy_miss var_params q st w Hfind) as (Hlog & _ & Hok).
    rewrite Hterm in Hlog. cbn in Hlog.
    exists (new ++ [q])%list. split_and!.
    + rewrite Hlog, Hcalls, fmap_app, app_assoc. done.
    + rewrite fmap_app, Hnew. apply NoDup_app. split_and!; [done| |apply NoDup_singleton].
      intros t Hin Hq. apply list_elem_of_singleton in Hq as ->.
      apply list_find_None in Hfind. rewrite Forall_forall in Hfind.
      by apply (Hfind _ Hin).
    + intros st'. destruct rt as [[e st1]|]; [|done].
      intros Hacc. apply accumulate_ok in Hacc as (-> & _ & _).
      destruct (Hok _ _ _ Hterm) as (-> & _). by rewrite fmap_app, Hnew.
Qed.

Lemma rdm_loop_calls var_params keys ikey st (w : World) r w' calls0 new :
  estimator_calls w = (calls0 ++ ((λ q, Some (VQubitOp q)) <$> new))%list →
  terms <$> new = lookup_ham st →
  NoDup (lookup_ham st) →
  rdm_loop var_params ikey keys st w = (r, w') →
  ∃ new',
    estimator_calls w' = (calls0 ++ ((λ q, Some (VQubitOp q)) <$> new'))%list ∧
    NoDup (terms <$> new').
Proof.
  revert ikey st w new. induction keys as [|key keys IH]; intros ikey st w new Hcalls Hnew Hnodup.
  - intros [= <- <-]. exists new. by rewrite Hnew.
  - cbn [rdm_loop]. intros Hrun.
    apply bind_inv in Hrun as [(e & Hiter & ->)|(st1 & w1 & Hiter & Hrun)].
    + destruct (rdm_iteration_calls _ _ _ _ _ _ _ _ _ Hcalls Hnew Hnodup Hiter)
        as (new' & ? & ? & _).
      by exists new'.
    + destruct (rdm_iteration_calls _ _ _ _ _ _ _ _ _ Hcalls Hnew Hnodup Hiter)
        as (new' & Hcalls' & Hnodup' & Hnew').
      specialize (Hnew' st1 eq_refl).
      eapply IH; [exact Hcalls' | exact Hnew' | by rewrite <- Hnew' | exact Hrun].
Qed.


(** C5.  When the compressed structure of the term is in the lookup list,
    its energy is the cached one and the world is untouched: the active
    Hamiltonian is not substituted and the estimator is not called.
    Otherwise the Hamiltonian is substituted, the estimator is called once,
    and the structure and the energy are appended to the lookup lists.  Over
    a whole call of [get_rdm], returning or raising, the estimator calls made
    are on Hamiltonians of pairwise distinct structures: at most one call per
    structure. *)
Theorem estimator_once_per_structure var_params (w : World) :
  (∀ q st,
     match list_find (λ t, t = terms q) (lookup_ham st) with
     | Some (i, _) =>
         term_energy var_params q st w =
           (match lookup_val st !! i with
            | Some e => Ok (e, st)
            | None => Raise (MkError IndexError "list index out of range")
            end, w)
     | None =>
         estimator_calls (term_energy var_params q st w).2
           = (estimator_calls w ++ [Some (VQubitOp q)])%list ∧
         attrs (term_energy var_params q st w).2 !! "qubit_hamiltonian" = Some (VQubitOp q) ∧
         ∀ e st' w',
           term_energy var_params q st w = (Ok (e, st'), w') →
           lookup_ham st' = (lookup_ham st ++ [terms q])%list ∧
           lookup_val st' = (lookup_val st ++ [e])%list ∧
           rdm1_np st' = rdm1_np st ∧ rdm2_np st' = rdm2_np st
     end)
  ∧ ∃ new : list QubitOp,
      estimator_calls (get_rdm var_params w).2
        = (estimator_calls w ++ ((λ q, Some (VQubitOp q)) <$> new))%list ∧
      NoDup (terms <$> new).
Proof.
  split.
  - intros q st.
    destruct (list_find (λ t, t = terms q) (lookup_ham st)) as [[i t]|] eqn:Hfind.
    + by apply term_energy_hit with t.
    + by apply term_energy_miss.
  - assert (Hnone : ∃ new : list QubitOp,
              estimator_calls w = (estimator_calls w ++ ((λ q, Some (VQubitOp q)) <$> new))%list
              ∧ NoDup (terms <$> new)).
    { exists []. rewrite app_nil_r. split; [done | apply NoDup_nil_2]. }
    destruct (get_rdm var_params w) as [r w'] eqn:Hrun. cbn [snd].
    unfold get_rdm in Hrun.
    apply bind_inv in Hrun as [(e & Hget & ->)|(tmp & w0 & Hget & Hrun)].
    { pose proof (stable_run same_calls _ _ _ _ (stable_getattr _ _) Hget) as Hsame.
      by rewrite Hsame. }
    apply getattr_ok_inv in Hget as [_ ->].
    apply bind_inv in Hrun as [(e & Hget & ->)|(ansatz & w0 & Hget & Hrun)].
    { pose proof (stable_run same_calls _ _ _ _ (stable_getattr _ _) Hget) as Hsame.
      by rewrite Hsame. }
    apply getattr_ok_inv in Hget as [_ ->].
    apply bind_inv in Hrun as [(e & Hn & ->)|(n & w0 & Hn & Hrun)].
    { assert (w' = w) as ->; [|done]. destruct ansatz; by injection Hn. }
    assert (w0 = w) as -> by (destruct ansatz; by injection Hn).
    apply bind_inv in Hrun as [(e & Hget & ->)|(fh & w0 & Hget & Hrun)].
    { pose proof (stable_run same_calls _ _ _ _ (stable_getattr _ _) Hget) as Hsame.
      by rewrite Hsame. }
    apply getattr_ok_inv in Hget as [_ ->].
    apply bind_inv in Hrun as [(e & Hkeys & ->)|(keys & w0 & Hkeys & Hrun)].
    { assert (w' = w) as ->; [|done]. destruct fh; by injection Hkeys. }
    assert (w0 = w) as -> by (destruct fh; by injection Hkeys).
    apply bind_inv in Hrun as [(e & Hloop & ->)|(st & w1 & Hloop & Hrun)].
    + eapply (rdm_loop_calls _ _ _ _ _ _ _ (estimator_calls w) []); [| | |exact Hloop].
      * by rewrite app_nil_r.
      * done.
      * apply NoDup_nil_2.
    + apply bind_inv in Hrun as [(e & [=] & _)|([] & w2 & [= <-] & [= _ <-])].
      cbn [estimator_calls].
      eapply (rdm_loop_calls _ _ _ _ _ _ _ (estimator_calls w) []); [| | |exact Hloop].
      * by rewrite app_nil_r.
      * done.
      * apply NoDup_nil_2.
Qed.

#[export] Instance swapped_preorder : PreOrder swapped.
Proof.
  split.
  - intros w. by left.
  - intros w1 w2 w3 H12 [H23|H23]; [|by right].
    destruct H12 as [H12|H12]; [left | right]; by rewrite H23.
Qed.






End Rdm.




(** Seven terms, five of distinct structure: five evaluations. *)
Lemma estimator_once_per_structure_witness :
  ∃ new : list QubitOp,
    estimator_calls (get_rdm (VList [VFloat 1; VFloat 2]) (toy_built [("molecule", VObj "H2")])).2
      = (estimator_calls (toy_built [("molecule", VObj "H2")])
           ++ ((λ q, Some (VQubitOp q)) <$> new))%list ∧
    NoDup (terms <$> new).
Proof.
  exact (proj2 (estimator_once_per_structure (VList [VFloat 1; VFloat 2])
                  (toy_built [("molecule", VObj "H2")]))).
Defined.

Lemma toy_five_evaluations :
  length (estimator_calls
            (get_rdm (VList [VFloat 1; VFloat 2]) (toy_built [("molecule", VObj "H2")])).2) = 5
  ∧ length (filter (λ key : Key, key ≠ []) toy_hamiltonian.*1) = 7.
Proof. split; vm_compute; reflexivity. Qed.

(** * Further properties

    The methods in the order of the source, after the frame rules for what
    is printed and the steps of the frame proofs. *)

Section OutputFrames.
Context `{Optimizers}.

#[export] Instance same_out_preorder : PreOrder same_out.
Proof.
  split.
  - by intros w.
  - intros w1 w2 w3 H12 H23. unfold same_out in *. congruence.
Qed.

Lemma stable_setattr_out name v : stable same_out (setattr name v).
Proof. by intros w. Qed.

Lemma stable_log_out : stable same_out log_estimator_call.
Proof. by intros w. Qed.

End OutputFrames.

(** One step of a frame proof for [build], for [get_rdm], and for what is
    printed. *)
Ltac frame_step :=
  first
    [ stable_step
    | apply stable_setattr_other;
      unfold build_untouched, configuration; intros ?; destruct_and?; done ].

Ltac rdm_frame_step :=
  first
    [ stable_step
    | apply stable_setattr_other; unfold rdm_untouched; intros ?; destruct_and?; done ].

Ltac out_step :=
  first [ apply stable_setattr_out | apply stable_log_out | stable_step ].

(** ** Construction *)

Section ConstructionMore.
Context `{Optimizers}.

(** The loop over the options leaves every attribute that is no option. *)
Lemma overwrite_options_other (items : list (string * PyVal)) (w w' : World) r k :
  overwrite_options items w = (r, w') →
  k ∉ items.*1 → attrs w' !! k = attrs w !! k.
Proof.
  revert w. induction items as [|[k1 v1] rest IH]; intros w.
  - by intros [= _ <-].
  - cbn [overwrite_options]. intros Hrun Hk.
    apply not_elem_of_cons in Hk as [Hne Hk].
    destruct (is_option k1); [|by injection Hrun as _ <-].
    rewrite bind_unfold in Hrun. cbn [setattr] in Hrun.
    rewrite (IH _ Hrun Hk). cbn. by rewrite lookup_insert_ne.
Qed.

(** With distinct keys, all of them options, the loop returns and every
    item is an attribute. *)
Lemma overwrite_options_items (items : list (string * PyVal)) (w : World) :
  NoDup items.*1 →
  (∀ k, k ∈ items.*1 → is_option k = true) →
  ∃ w', overwrite_options items w = (Ok (), w') ∧
        ∀ k v, (k, v) ∈ items → attrs w' !! k = Some v.
Proof.
  revert w. induction items as [|[k1 v1] rest IH]; intros w Hnodup Hall.
  - exists w. split; [done|]. intros k v Hin. by apply elem_of_nil in Hin.
  - cbn in Hnodup. apply NoDup_cons in Hnodup as [Hfresh Hnodup].
    cbn [overwrite_options]. rewrite (Hall k1) by apply list_elem_of_here.
    rewrite bind_unfold. cbn [setattr].
    destruct (IH (MkWorld (<[k1:=v1]> (attrs w)) (stdout w) (estimator_calls w)) Hnodup)
      as (w' & Hrun & Hitems).
    { intros k Hk. apply Hall. by apply list_elem_of_further. }
    exists w'. split; [done|]. intros k v Hin.
    apply elem_of_cons in Hin as [[= -> ->]|Hin]; [|by apply Hitems].
    rewrite (overwrite_options_other _ _ _ _ _ Hrun Hfresh). cbn.
    apply lookup_insert_eq.
Qed.

Lemma option_not_result (k : string) :
  is_option k = true →
  k ≠ "optimal_energy" ∧ k ≠ "optimal_var_params" ∧ k ≠ "builtin_ansatze".
Proof.
  unfold is_option. intros Hk%bool_decide_eq_true. cbn in Hk.
  repeat (apply elem_of_cons in Hk as [->|Hk]; [done|]).
  by apply elem_of_nil in Hk.
Qed.

(** X1.  A dictionary of options with a true molecule constructs a solver: the
    options given hold the values given, the others their defaults, no
    optimum is recorded, and neither a backend nor a qubit Hamiltonian
    exists. *)
Theorem init_accepts_options (opt_dict : list (string * PyVal)) :
  NoDup opt_dict.*1 →
  (∀ k, k ∈ opt_dict.*1 → is_option k = true) →
  (∃ v, ("molecule", v) ∈ opt_dict ∧ truthy v = true) →
  ∃ a, __init__ opt_dict = Ok a ∧
       (∀ k v, (k, v) ∈ opt_dict → a !! k = Some v) ∧
       (∀ k, is_option k = true → k ∉ opt_dict.*1 →
          a !! k = (list_to_map default_options : gmap string PyVal) !! k) ∧
       a !! "optimal_energy" = Some VNone ∧
       a !! "optimal_var_params" = Some VNone ∧
       a !! "builtin_ansatze" = Some (VSet [UCCSD; UCC1; UCC3]) ∧
       a !! "backend" = None ∧
       a !! "qubit_hamiltonian" = None.
Proof.
  intros Hnodup Hall (mol & Hmol & Htrue).
  destruct (overwrite_options_items opt_dict
              (MkWorld (list_to_map default_options) [] []) Hnodup Hall)
    as (w' & Hrun & Hitems).
  unfold __init__, init_body.
  rewrite bind_unfold, Hrun.
  rewrite bind_unfold, (getattr_some _ _ _ (Hitems _ _ Hmol)).
  rewrite bind_unfold, Htrue. cbn [negb mret M_ret].
  rewrite !bind_unfold. cbn [setattr attrs stdout estimator_calls].
  eexists. split; [reflexivity|]. cbn [attrs stdout estimator_calls].
  assert (Hkeep : ∀ k, k ∉ opt_dict.*1 →
            attrs w' !! k = (list_to_map default_options : gmap string PyVal) !! k).
  { intros k Hk. by rewrite (overwrite_options_other _ _ _ _ _ Hrun Hk). }
  split_and!.
  - intros k v Hin.
    assert (Hk : is_option k = true).
    { apply Hall. apply list_elem_of_fmap. by exists (k, v). }
    apply option_not_result in Hk as (? & ? & ?).
    rewrite !lookup_insert_ne by done. by apply Hitems.
  - intros k Hk Hfresh. apply option_not_result in Hk as (? & ? & ?).
    rewrite !lookup_insert_ne by done. by apply Hkeep.
  - rewrite lookup_insert_ne by done. rewrite lookup_insert_ne by done.
    apply lookup_insert_eq.
  - rewrite lookup_insert_ne by done. apply lookup_insert_eq.
  - apply lookup_insert_eq.
  - rewrite !lookup_insert_ne by done. rewrite Hkeep; [done|].
    intros Hin. by specialize (Hall _ Hin).
  - rewrite !lookup_insert_ne by done. rewrite Hkeep; [done|].
    intros Hin. by specialize (Hall _ Hin).
Qed.

(** The keys that the loop accepts are options. *)
Lemma overwrite_options_keys (items : list (string * PyVal)) (w w' : World) k :
  overwrite_options items w = (Ok (), w') → k ∈ items.*1 → is_option k = true.
Proof.
  revert w. induction items as [|[k1 v1] rest IH]; intros w Hrun Hin.
  - by apply elem_of_nil in Hin.
  - cbn [overwrite_options] in Hrun. cbn in Hin.
    destruct (is_option k1) eqn:Hk1; [|unfold raise in Hrun; discriminate].
    apply elem_of_cons in Hin as [->|Hin]; [done|].
    rewrite bind_unfold in Hrun. cbn [setattr] in Hrun. by eapply IH.
Qed.

(** The attributes of a solver just constructed are options or results. *)
Lemma init_absent (opt_dict : list (string * PyVal)) a (k : string) :
  __init__ opt_dict = Ok a →
  is_option k = false →
  k ≠ "optimal_energy" → k ≠ "optimal_var_params" → k ≠ "builtin_ansatze" →
  a !! k = None.
Proof.
  unfold __init__, init_body. rewrite bind_unfold.
  destruct (overwrite_options opt_dict (MkWorld (list_to_map default_options) [] []))
    as [[[]|e] w1] eqn:Hrun; [|done].
  intros Hinit Hk Hne1 Hne2 Hne3.
  assert (Hb : attrs w1 !! k = None).
  { destruct (decide (k ∈ opt_dict.*1)) as [Hin|Hout].
    - apply (overwrite_options_keys _ _ _ _ Hrun) in Hin. congruence.
    - rewrite (overwrite_options_other _ _ _ _ _ Hrun Hout). cbn [attrs].
      apply not_elem_of_list_to_map_1.
      unfold is_option in Hk. by apply bool_decide_eq_false in Hk. }
  revert Hinit. rewrite bind_unfold. unfold getattr at 1.
  destruct (attrs w1 !! "molecule") as [mol|]; [|done].
  rewrite bind_unfold. destruct (negb (truthy mol)); [done|].
  cbn [mret M_ret]. rewrite !bind_unfold. cbn [setattr attrs stdout estimator_calls].
  intros [= <-]. by rewrite !lookup_insert_ne.
Qed.

Lemma overwrite_options_present (items : list (string * PyVal)) (w w' : World) r k :
  overwrite_options items w = (r, w') →
  is_Some (attrs w !! k) → is_Some (attrs w' !! k).
Proof.
  revert w. induction items as [|[k1 v1] rest IH]; intros w.
  - by intros [= _ <-].
  - cbn [overwrite_options]. intros Hrun Hk.
    destruct (is_option k1); [|by injection Hrun as _ <-].
    rewrite bind_unfold in Hrun. cbn [setattr] in Hrun.
    apply (IH _ Hrun). cbn. rewrite lookup_insert_is_Some.
    destruct (decide (k1 = k)); [by left | by right].
Qed.

(** X2.  A solver that [__init__] returns has the ten options and the three
    attributes [optimal_energy], [optimal_var_params] and [builtin_ansatze],
    and no other attribute: every option is defined, and nothing that
    [build] creates exists yet. *)
Theorem init_attributes (opt_dict : list (string * PyVal)) a (k : string) :
  __init__ opt_dict = Ok a →
  is_Some (a !! k) ↔
    is_option k = true ∨ k ∈ ["optimal_energy"; "optimal_var_params"; "builtin_ansatze"].
Proof.
  intros Hinit. split.
  - intros Hsome.
    destruct (is_option k) eqn:Hk; [by left|]. right.
    destruct (decide (k = "optimal_energy")) as [->|Hne1]; [set_solver|].
    destruct (decide (k = "optimal_var_params")) as [->|Hne2]; [set_solver|].
    destruct (decide (k = "builtin_ansatze")) as [->|Hne3]; [set_solver|].
    rewrite (init_absent _ _ _ Hinit Hk Hne1 Hne2 Hne3) in Hsome. by destruct Hsome.
  - revert Hinit. unfold __init__, init_body. rewrite bind_unfold.
    destruct (overwrite_options opt_dict (MkWorld (list_to_map default_options) [] []))
      as [[[]|e] w1] eqn:Hrun; [|done].
    rewrite bind_unfold. unfold getattr at 1.
    destruct (attrs w1 !! "molecule") as [mol|]; [|done].
    rewrite bind_unfold. destruct (negb (truthy mol)); [done|].
    cbn [mret M_ret]. rewrite !bind_unfold. cbn [setattr attrs stdout estimator_calls].
    intros [= <-] [Hk|Hk].
    + rewrite !lookup_insert_is_Some'. do 3 right.
      apply (overwrite_options_present _ _ _ _ _ Hrun). cbn [attrs].
      apply elem_of_dom. rewrite dom_list_to_map_L. apply elem_of_list_to_set.
      unfold is_option in Hk. by apply bool_decide_eq_true in Hk.
    + rewrite !lookup_insert_is_Some'.
      repeat (apply elem_of_cons in Hk as [->|Hk]; [naive_solver|]).
      by apply elem_of_nil in Hk.
Qed.

(** X3.  [simulate] on a solver just constructed, with a true ansatz option (the
    default is one): the test that should ask for [build] reads the backend,
    which [__init__] does not create, and raises an [AttributeError]. *)
Theorem simulate_before_build (opt_dict : list (string * PyVal)) a ansatz out calls :
  __init__ opt_dict = Ok a →
  a !! "ansatz" = Some ansatz → truthy ansatz = true →
  simulate (MkWorld a out calls) =
    (Raise (MkError AttributeError "'VQESolver' object has no attribute 'backend'"),
     MkWorld a out calls).
Proof.
  intros Hinit Hansatz Htrue.
  apply (init_absent _ _ "backend") in Hinit; [|done..].
  unfold simulate.
  rewrite bind_unfold, (getattr_some "ansatz" ansatz (MkWorld a out calls) Hansatz).
  rewrite bind_unfold, Htrue.
  rewrite bind_unfold, (getattr_none "backend" (MkWorld a out calls) Hinit). done.
Qed.

End ConstructionMore.

Lemma init_accepts_options_witness :
  ∃ a, __init__ [("molecule", VObj "H2"); ("verbose", VBool true)] = Ok a ∧
       (∀ k v, (k, v) ∈ [("molecule", VObj "H2"); ("verbose", VBool true)] → a !! k = Some v) ∧
       (∀ k, is_option k = true →
          k ∉ [("molecule", VObj "H2"); ("verbose", VBool true)].*1 →
          a !! k = (list_to_map default_options : gmap string PyVal) !! k) ∧
       a !! "optimal_energy" = Some VNone ∧
       a !! "optimal_var_params" = Some VNone ∧
       a !! "builtin_ansatze" = Some (VSet [UCCSD; UCC1; UCC3]) ∧
       a !! "backend" = None ∧
       a !! "qubit_hamiltonian" = None.
Proof.
  apply (init_accepts_options [("molecule", VObj "H2"); ("verbose", VBool true)]).
  - apply NoDup_cons. split.
    + intros Hin. apply list_elem_of_singleton in Hin. discriminate.
    + apply NoDup_singleton.
  - intros k Hk. cbn in Hk.
    repeat (apply elem_of_cons in Hk as [->|Hk]; [reflexivity|]).
    by apply elem_of_nil in Hk.
  - exists (VObj "H2"). split; [apply list_elem_of_here | reflexivity].
Defined.

Lemma init_attributes_witness :
  is_Some (attrs toy_h2 !! "verbose") ↔
    is_option "verbose" = true ∨
    "verbose" ∈ ["optimal_energy"; "optimal_var_params"; "builtin_ansatze"].
Proof. apply (init_attributes [("molecule", VObj "H2")]). reflexivity. Defined.

Lemma simulate_before_build_witness :
  simulate (toy_new [("molecule", VObj "H2")]) =
    (Raise (MkError AttributeError "'VQESolver' object has no attribute 'backend'"),
     toy_new [("molecule", VObj "H2")]).
Proof.
  exact (simulate_before_build [("molecule", VObj "H2")] _ (VEnum UCCSD) [] []
           eq_refl eq_refl eq_refl).
Defined.

(** ** [build] *)

Section BuildMore.
Context `{Optimizers}.

Lemma check_reduced_ucc_pure : stable eq check_reduced_ucc.
Proof. unfold check_reduced_ucc. repeat stable_step. Qed.

Lemma build_ansatz_frame :
  stable (same_attrs (λ k, k ≠ "ansatz" ∧ k ≠ "initial_var_params")) build_ansatz.
Proof. unfold build_ansatz. repeat frame_step. Qed.

Lemma build_backend_frame : stable (same_attrs (λ k, k ≠ "backend")) build_backend.
Proof. unfold build_backend. repeat frame_step. Qed.

Lemma stable_same_attrs_weaken {X} (keep keep' : string → Prop) (m : M X) :
  (∀ k, keep' k → keep k) → stable (same_attrs keep) m → stable (same_attrs keep') m.
Proof. intros Hsub Hm w k Hk. apply Hm, Hsub, Hk. Qed.

Lemma stable_eq_same_attrs {X} (keep : string → Prop) (m : M X) :
  stable eq m → stable (same_attrs keep) m.
Proof. intros Hm w k _. by rewrite <- (Hm w). Qed.

Lemma build_objects_frame :
  stable (same_attrs (λ k, build_untouched k ∨ k = "backend")) build_objects.
Proof.
  unfold build_objects.
  apply stable_bind; [apply _ | | intros _; apply stable_bind; [apply _ | | intros _]].
  - eapply stable_same_attrs_weaken; [|apply build_hamiltonians_frame].
    unfold build_untouched, configuration. intros k [?| ->]; [destruct_and!|]; done.
  - apply stable_eq_same_attrs, check_reduced_ucc_pure.
  - eapply stable_same_attrs_weaken; [|apply build_ansatz_frame].
    unfold build_untouched. intros k [?| ->]; [destruct_and!|]; done.
Qed.

Lemma build_split (w : World) :
  build w = (build_objects ≫= λ _, build_backend) w.
Proof.
  unfold build, build_objects. rewrite !bind_unfold.
  destruct (build_hamiltonians w) as [[[]|e] w1]; [|done].
  rewrite !bind_unfold.
  destruct (check_reduced_ucc w1) as [[[]|e] w2]; [|done].
  rewrite !bind_unfold.
  by destruct (build_ansatz w2) as [[[]|e] w3].
Qed.

(** X4.  [build] assigns seven attributes and no other: the options other
    than the mean field, the ansatz and the initial parameters, and the
    recorded optimum, are as they were, whether [build] returns or raises. *)
Theorem build_keeps_configuration (w : World) (k : string) :
  build_untouched k → attrs (build w).2 !! k = attrs w !! k.
Proof.
  intros Hk. rewrite build_split.
  assert (Hst : stable (same_attrs build_untouched) (build_objects ≫= λ _, build_backend)).
  { apply stable_bind; [apply _ | | intros _].
    - eapply stable_same_attrs_weaken; [|apply build_objects_frame]. by left.
    - eapply stable_same_attrs_weaken; [|apply build_backend_frame].
      unfold build_untouched. intros k' ?. destruct_and!. done. }
  by apply Hst.
Qed.

(** The backend is created by the last statement of [build]. *)
Lemma build_backend_inv (w : World) r w' :
  build_backend w = (r, w') →
  (w' = w ∧ ∃ e, r = Raise e) ∨
  (r = Ok () ∧ ∃ b, attrs w' = <["backend" := VBackend b]> (attrs w)).
Proof.
  unfold build_backend. intros Hrun.
  apply bind_inv in Hrun as [(e & Hget & ->)|(opts & w0 & Hget & Hrun)].
  { left. split; [|by eexists]. symmetry.
    exact (stable_run eq _ _ _ _ (stable_getattr _ _) Hget). }
  apply getattr_ok_inv in Hget as [_ ->].
  apply bind_inv in Hrun as [(e & [= _ <-] & ->)|(target & w0 & [_ ->]%call_ok_inv & Hrun)].
  { left. split; [done | by eexists]. }
  apply bind_inv in Hrun as [(e & [= _ <-] & ->)|(n_shots & w0 & [_ ->]%call_ok_inv & Hrun)].
  { left. split; [done | by eexists]. }
  apply bind_inv in Hrun as [(e & [= _ <-] & ->)|(noise & w0 & [_ ->]%call_ok_inv & Hrun)].
  { left. split; [done | by eexists]. }
  apply bind_inv in Hrun as [(e & [= _ <-] & ->)|(b & w0 & [_ ->]%call_ok_inv & Hrun)].
  { left. split; [done | by eexists]. }
  injection Hrun as <- <-. right. split; [done|]. by exists b.
Qed.

(** X5.  A [build] that raises has created no backend: the attribute is as it
    was, so absent on a solver that was never built. *)
Theorem build_raise_no_backend (w w' : World) (e : PyError) :
  build w = (Raise e, w') → attrs w' !! "backend" = attrs w !! "backend".
Proof.
  rewrite build_split. intros Hrun.
  apply bind_inv in Hrun as [(e' & Hobj & _)|([] & w3 & Hobj & Hrun)].
  - apply (stable_run _ _ _ _ _ build_objects_frame Hobj). by right.
  - apply build_backend_inv in Hrun as [[-> _]|[[=] _]].
    apply (stable_run _ _ _ _ _ build_objects_frame Hobj). by right.
Qed.

Lemma build_hamiltonians_ok (w w1 : World) :
  build_hamiltonians w = (Ok (), w1) → hamiltonians_built w w1.
Proof.
  unfold build_hamiltonians. intros Hrun.
  apply bind_ok_inv in Hrun as (mf0 & ? & [Hmf0 ->]%getattr_ok_inv & Hrun).
  apply bind_ok_inv in Hrun as ([] & w0 & Hcond & Hrun).
  assert (∃ mol mf, attrs w !! "molecule" = Some mol ∧
            (if truthy mf0 then mf = mf0 else prepare_mf_RHF mol = Ok mf) ∧
            attrs w0 !! "mean_field" = Some mf ∧
            ∀ k, k ≠ "mean_field" → attrs w0 !! k = attrs w !! k)
    as (mol & mf & Hmol & Hmf & Hmf1 & Hsame).
  { apply bind_ok_inv in Hrun as (mol & ? & [Hmol ->]%getattr_ok_inv & _).
    destruct (truthy mf0); cbn [negb] in Hcond.
    - injection Hcond as <-. by exists mol, mf0.
    - apply bind_ok_inv in Hcond as (mol' & ? & [Hmol' ->]%getattr_ok_inv & Hcond).
      apply bind_ok_inv in Hcond as (mf & ? & [Hrhf ->]%call_ok_inv & Hcond).
      injection Hcond as <-. cbn [attrs] in *.
      exists mol', mf. split_and!; [done..| |].
      + apply lookup_insert_eq.
      + intros k Hk. by rewrite lookup_insert_ne. }
  clear Hcond.
  apply bind_ok_inv in Hrun as (mol' & ? & [Hmol' ->]%getattr_ok_inv & Hrun).
  rewrite Hsame, Hmol in Hmol' by done. injection Hmol' as <-.
  apply bind_ok_inv in Hrun as (mf' & ? & [Hmf' ->]%getattr_ok_inv & Hrun).
  rewrite Hmf1 in Hmf'. injection Hmf' as <-.
  apply bind_ok_inv in Hrun as (fo & ? & [Hfo ->]%getattr_ok_inv & Hrun).
  rewrite Hsame in Hfo by done.
  apply bind_ok_inv in Hrun as (m & ? & [Hm ->]%call_ok_inv & Hrun).
  apply bind_ok_inv in Hrun as ([] & ? & [= <-] & Hrun).
  apply bind_ok_inv in Hrun as (fh & ? & [Hfh ->]%call_ok_inv & Hrun).
  apply bind_ok_inv in Hrun as ([] & ? & [= <-] & Hrun).
  apply bind_ok_inv in Hrun as (mapping & ? & [Hmapping ->]%getattr_ok_inv & Hrun).
  apply bind_ok_inv in Hrun as (flag & ? & [Hflag ->]%getattr_ok_inv & Hrun).
  apply bind_ok_inv in Hrun as (q & ? & [Hq ->]%call_ok_inv & Hrun).
  injection Hrun as <-. cbn [attrs] in *.
  rewrite !lookup_insert_ne, Hsame in Hmapping by done.
  rewrite !lookup_insert_ne, Hsame in Hflag by done.
  econstructor; try eassumption; cbn [attrs].
  - by rewrite !lookup_insert_ne.
  - rewrite !lookup_insert_ne by done. apply lookup_insert_eq.
  - rewrite lookup_insert_ne by done. apply lookup_insert_eq.
  - apply lookup_insert_eq.
Qed.

(** X6.  The Hamiltonians that [build] leaves.  A mean field given by the
    user, when true, is the one used and kept; otherwise it is the one
    [prepare_mf_RHF] computes for the molecule.  The molecular data are
    built from the molecule, that mean field and the frozen orbitals; the
    fermionic Hamiltonian is theirs, and the qubit Hamiltonian is its mapping
    under the configured mapping and spin ordering. *)
Theorem build_hamiltonians_data_flow (w w1 : World) :
  build_hamiltonians w = (Ok (), w1) →
  ∃ molecule given_mf mean_field frozen_orbitals m fermionic mapping flag q,
    attrs w !! "molecule" = Some molecule ∧
    attrs w !! "mean_field" = Some given_mf ∧
    (if truthy given_mf then mean_field = given_mf
     else prepare_mf_RHF molecule = Ok mean_field) ∧
    attrs w !! "frozen_orbitals" = Some frozen_orbitals ∧
    MolecularData molecule mean_field frozen_orbitals = Ok m ∧
    get_molecular_hamiltonian m = Ok fermionic ∧
    attrs w !! "qubit_mapping" = Some mapping ∧
    attrs w !! "up_then_down" = Some flag ∧
    fermion_to_qubit_mapping fermionic mapping (n_qubits m) (n_electrons m) flag = Ok q ∧
    attrs w1 !! "mean_field" = Some mean_field ∧
    attrs w1 !! "qemist_molecule" = Some (VMolData m) ∧
    attrs w1 !! "fermionic_hamiltonian" = Some fermionic ∧
    attrs w1 !! "qubit_hamiltonian" = Some (VQubitOp q).
Proof.
  intros [mol mf0 mf fo m fh mapping flag q ? ? ? ? ? ? ? ? ? ? ? ? ?]%build_hamiltonians_ok.
  exists mol, mf0, mf, fo, m, fh, mapping, flag, q. done.
Qed.

(** The ansatz phase, when it returns, leaves an ansatz object whose circuit
    was built, and the parameters that the object returned. *)
Lemma build_ansatz_ok (w w' : World) :
  build_ansatz w = (Ok (), w') →
  ∃ a0 a1 a2 params given,
    set_var_params a0 given = (Ok params, a1) ∧
    build_circuit a1 = (Ok (), a2) ∧
    attrs w !! "initial_var_params" = Some given ∧
    attrs w' !! "ansatz" = Some (VAnsatz a2) ∧
    attrs w' !! "initial_var_params" = Some params ∧
    match attrs w !! "ansatz" with
    | Some (VAnsatz a) => a0 = a
    | Some (VEnum UCCSD) =>
        ∃ m mapping mf flag,
          attrs w !! "qemist_molecule" = Some m ∧ attrs w !! "qubit_mapping" = Some mapping ∧
          attrs w !! "mean_field" = Some mf ∧ attrs w !! "up_then_down" = Some flag ∧
          new_UCCSD m mapping mf flag = Ok a0
    | Some (VEnum UCC1) => new_RUCC 1 = Ok a0
    | Some (VEnum UCC3) => new_RUCC 3 = Ok a0
    | _ => False
    end.
Proof.
  unfold build_ansatz. intros Hrun.
  apply bind_ok_inv in Hrun as (ansatz & ? & [Hansatz ->]%getattr_ok_inv & Hrun).
  apply bind_ok_inv in Hrun as ([] & w0 & Hmake & Hrun).
  assert (∃ a0, attrs w0 !! "ansatz" = Some (VAnsatz a0) ∧
            (∀ k, k ≠ "ansatz" → attrs w0 !! k = attrs w !! k) ∧
            match ansatz with
            | VAnsatz a => a0 = a
            | VEnum UCCSD =>
                ∃ m mapping mf flag,
                  attrs w !! "qemist_molecule" = Some m ∧
                  attrs w !! "qubit_mapping" = Some mapping ∧
                  attrs w !! "mean_field" = Some mf ∧ attrs w !! "up_then_down" = Some flag ∧
                  new_UCCSD m mapping mf flag = Ok a0
            | VEnum UCC1 => new_RUCC 1 = Ok a0
            | VEnum UCC3 => new_RUCC 3 = Ok a0
            | _ => False
            end) as (a0 & Ha0 & Hsame & Horigin).
  { destruct ansatz;
      try (apply bind_ok_inv in Hmake as (? & ? & _ & [=]); fail).
    - apply bind_ok_inv in Hmake as (obj & w2 & Hnew & [= <-]).
      exists obj. cbn [attrs]. split; [apply lookup_insert_eq|].
      destruct a.
      + apply bind_ok_inv in Hnew as (m & ? & [Hm ->]%getattr_ok_inv & Hnew).
        apply bind_ok_inv in Hnew as (mapping & ? & [Hmapping ->]%getattr_ok_inv & Hnew).
        apply bind_ok_inv in Hnew as (mf & ? & [Hmf ->]%getattr_ok_inv & Hnew).
        apply bind_ok_inv in Hnew as (flag & ? & [Hflag ->]%getattr_ok_inv & Hnew).
        apply call_ok_inv in Hnew as [Hnew ->].
        split; [intros k Hk; by rewrite lookup_insert_ne|].
        by exists m, mapping, mf, flag.
      + apply call_ok_inv in Hnew as [Hnew ->].
        split; [intros k Hk; by rewrite lookup_insert_ne | done].
      + apply call_ok_inv in Hnew as [Hnew ->].
        split; [intros k Hk; by rewrite lookup_insert_ne | done].
    - injection Hmake as <-. by exists a. }
  clear Hmake.
  apply bind_ok_inv in Hrun as (ansatz' & ? & [Hansatz' ->]%getattr_ok_inv & Hrun).
  rewrite Ha0 in Hansatz'. injection Hansatz' as <-.
  apply bind_ok_inv in Hrun as (given & ? & [Hgiven ->]%getattr_ok_inv & Hrun).
  destruct (set_var_params a0 given) as [r a1] eqn:Hset.
  apply bind_ok_inv in Hrun as ([] & ? & [= <-] & Hrun).
  apply bind_ok_inv in Hrun as (params & ? & [-> ->]%call_ok_inv & Hrun).
  apply bind_ok_inv in Hrun as ([] & ? & [= <-] & Hrun).
  destruct (build_circuit a1) as [r2 a2] eqn:Hcircuit.
  apply bind_ok_inv in Hrun as ([] & ? & [= <-] & [-> ->]%call_ok_inv).
  cbn [attrs].
  exists a0, a1, a2, params, given. split_and!; [done..| | | |].
  - by rewrite <- Hsame.
  - apply lookup_insert_eq.
  - rewrite lookup_insert_ne by done. apply lookup_insert_eq.
  - by rewrite Hansatz.
Qed.

(** X7.  What a [build] that returns has established: the Hamiltonians and
    the molecular data exist, the ansatz field is an ansatz object, the
    initial parameters are those the ansatz returned, and the backend
    exists. *)
Theorem build_return_is_built (w w' : World) :
  build w = (Ok (), w') →
  ∃ a b q m fermionic params,
    attrs w' !! "ansatz" = Some (VAnsatz a) ∧
    attrs w' !! "backend" = Some (VBackend b) ∧
    attrs w' !! "qubit_hamiltonian" = Some (VQubitOp q) ∧
    attrs w' !! "qemist_molecule" = Some (VMolData m) ∧
    attrs w' !! "fermionic_hamiltonian" = Some fermionic ∧
    attrs w' !! "initial_var_params" = Some params.
Proof.
  unfold build. intros Hrun.
  apply bind_ok_inv in Hrun as ([] & w1 & Hh & Hrun).
  apply bind_ok_inv in Hrun as ([] & w2 & Hcheck & Hrun).
  apply bind_ok_inv in Hrun as ([] & w3 & Hansatz & Hrun).
  pose proof (stable_run eq _ _ _ _ check_reduced_ucc_pure Hcheck) as <-.
  apply build_hamiltonians_ok in Hh as [? ? ? ? m fh ? ? q _ _ _ _ _ _ _ _ _ _ Hm Hfh Hq].
  pose proof (stable_run _ _ _ _ _ build_ansatz_frame Hansatz) as Hframe.
  apply build_ansatz_ok in Hansatz as (a0 & a1 & a2 & params & given & _ & _ & _ & Ha & Hp & _).
  apply build_backend_inv in Hrun as [[_ [e [=]]]|[_ [b Hb]]].
  exists a2, b, q, m, fh, params. rewrite Hb.
  split_and!.
  - by rewrite lookup_insert_ne.
  - apply lookup_insert_eq.
  - rewrite lookup_insert_ne by done. by rewrite Hframe.
  - rewrite lookup_insert_ne by done. by rewrite Hframe.
  - rewrite lookup_insert_ne by done. by rewrite Hframe.
  - by rewrite lookup_insert_ne.
Qed.

Lemma ne_str_false (v : PyVal) (s : string) : ne_str v s = false → v = VStr s.
Proof.
  destruct v; try discriminate. cbn. intros Heq%negb_false_iff.
  by apply String.eqb_eq in Heq as ->.
Qed.

(** The verification of UCC1 and UCC3, when it lets [build] go on. *)
Lemma check_reduced_ucc_ok (w w' : World) (a : Ansatze) :
  check_reduced_ucc w = (Ok (), w') →
  attrs w !! "ansatz" = Some (VEnum a) → a ≠ UCCSD →
  attrs w !! "qubit_mapping" = Some (VStr "jw") ∧
  (∃ flag, attrs w !! "up_then_down" = Some flag ∧ truthy flag = true) ∧
  ∃ q, attrs w !! "qubit_hamiltonian" = Some q ∧ count_qubits q = Ok 4%Z.
Proof.
  unfold check_reduced_ucc. intros Hrun Ha Hne.
  rewrite bind_unfold, (getattr_some _ _ _ Ha) in Hrun.
  assert (is_reduced_ucc (VEnum a) = true) as Hred by by destruct a.
  rewrite Hred in Hrun.
  apply bind_ok_inv in Hrun as (mapping & ? & [Hmapping ->]%getattr_ok_inv & Hrun).
  apply bind_ok_inv in Hrun as ([] & w0 & Hjw & Hrun).
  destruct (ne_str mapping "jw") eqn:Hstr; [discriminate|]. injection Hjw as <-.
  apply ne_str_false in Hstr as ->.
  apply bind_ok_inv in Hrun as (flag & ? & [Hflag ->]%getattr_ok_inv & Hrun).
  apply bind_ok_inv in Hrun as ([] & w0 & Hup & Hrun).
  destruct (truthy flag) eqn:Htrue; [|discriminate]. injection Hup as <-.
  apply bind_ok_inv in Hrun as (q & ? & [Hq ->]%getattr_ok_inv & Hrun).
  apply bind_ok_inv in Hrun as (n & ? & [Hn ->]%call_ok_inv & Hrun).
  destruct (n =? 4)%Z eqn:Hn4; [|discriminate].
  apply Z.eqb_eq in Hn4 as ->.
  split_and!; [done | by exists flag | by exists q].
Qed.

(** X8.  A [build] with ansatz UCC1 or UCC3 that returns was run with the
    [jw] mapping and a true [up_then_down], on a qubit Hamiltonian that
    [count_qubits] finds to act on 4 qubits; the ansatz object is the
    restricted UCC with 1 or 3 parameters. *)
Theorem build_reduced_ucc_return (w w' : World) (a : Ansatze) :
  build w = (Ok (), w') →
  attrs w !! "ansatz" = Some (VEnum a) → a ≠ UCCSD →
  attrs w !! "qubit_mapping" = Some (VStr "jw") ∧
  (∃ flag, attrs w !! "up_then_down" = Some flag ∧ truthy flag = true) ∧
  (∃ q, attrs w' !! "qubit_hamiltonian" = Some (VQubitOp q) ∧
        count_qubits (VQubitOp q) = Ok 4%Z) ∧
  ∃ a0 a1 a2 given params,
    new_RUCC (match a with UCC3 => 3 | _ => 1 end) = Ok a0 ∧
    set_var_params a0 given = (Ok params, a1) ∧
    build_circuit a1 = (Ok (), a2) ∧
    attrs w' !! "ansatz" = Some (VAnsatz a2).
Proof.
  intros Hrun Ha Hne.
  unfold build in Hrun.
  apply bind_ok_inv in Hrun as ([] & w1 & Hh & Hrun).
  apply bind_ok_inv in Hrun as ([] & w2 & Hcheck & Hrun).
  apply bind_ok_inv in Hrun as ([] & w3 & Hansatz & Hrun).
  pose proof (stable_run _ _ _ _ _ build_hamiltonians_frame Hh) as Hframe1.
  assert (Ha1 : attrs w1 !! "ansatz" = Some (VEnum a)).
  { rewrite Hframe1, Ha; [done | by repeat split]. }
  pose proof (stable_run eq _ _ _ _ check_reduced_ucc_pure Hcheck) as <-.
  apply (check_reduced_ucc_ok _ _ a) in Hcheck
    as (Hjw & (flag & Hflag & Htrue) & (q0 & Hq0 & Hcount)); [|done..].
  apply build_hamiltonians_ok in Hh as [? ? ? ? ? ? ? ? q _ _ _ _ _ _ _ _ _ _ _ _ Hq].
  rewrite Hq in Hq0. injection Hq0 as <-.
  pose proof (stable_run _ _ _ _ _ build_ansatz_frame Hansatz) as Hframe3.
  apply build_ansatz_ok in Hansatz
    as (a0 & a1 & a2 & params & given & Hset & Hcircuit & _ & Ha3 & _ & Horigin).
  rewrite Ha1 in Horigin.
  apply build_backend_inv in Hrun as [[_ [e [=]]]|[_ [b Hb]]].
  split_and!.
  - rewrite <- Hjw. rewrite Hframe1; [done | by repeat split].
  - exists flag. split; [|done]. rewrite <- Hflag. rewrite Hframe1; [done | by repeat split].
  - exists q. split; [|done]. rewrite Hb, lookup_insert_ne by done.
    rewrite Hframe3; [done | by split].
  - exists a0, a1, a2, given, params. split_and!; [|done..|].
    + by destruct a.
    + by rewrite Hb, lookup_insert_ne.
Qed.

(** X9.  An ansatz option that is neither a member of [Ansatze] nor an
    [Ansatz] object is found only after the Hamiltonians are built: [build]
    then raises a [TypeError] that lists the built-in ansatze, with the
    Hamiltonians assigned and nothing else. *)
Theorem build_rejects_invalid_ansatz (w w1 : World) (v builtin : PyVal) :
  build_hamiltonians w = (Ok (), w1) →
  attrs w !! "ansatz" = Some v → not_an_ansatz v →
  attrs w !! "builtin_ansatze" = Some builtin →
  build w =
    (Raise (MkError TypeError
              ("Invalid ansatz dataype. Expecting instance of Ansatz class, or one of built-in options:"
                 ++ newline ++ tab ++ py_str builtin)), w1).
Proof.
  intros Hh Hv Hinvalid Hbuiltin.
  pose proof (stable_run _ _ _ _ _ build_hamiltonians_frame Hh) as Hframe.
  assert (Hv1 : attrs w1 !! "ansatz" = Some v).
  { rewrite Hframe, Hv; [done | by repeat split]. }
  assert (Hb1 : attrs w1 !! "builtin_ansatze" = Some builtin).
  { rewrite Hframe, Hbuiltin; [done | by repeat split]. }
  unfold build. rewrite bind_unfold, Hh. rewrite bind_unfold.
  assert (check_reduced_ucc w1 = (Ok (), w1)) as ->.
  { unfold check_reduced_ucc. rewrite bind_unfold, (getattr_some _ _ _ Hv1).
    by destruct v as [| | | | | | | |[]| | | | | | | |]. }
  rewrite bind_unfold. unfold build_ansatz.
  rewrite bind_unfold, (getattr_some _ _ _ Hv1).
  destruct v; try done;
    by rewrite bind_unfold, bind_unfold, (getattr_some _ _ _ Hb1).
Qed.

Lemma subscript_dict (kv : list (string * PyVal)) (k : string) :
  (k ∈ kv.*1 → ∃ v, subscript (VDict kv) k = Ok v) ∧
  (k ∉ kv.*1 → subscript (VDict kv) k = Raise (MkError KeyError k)).
Proof.
  unfold subscript. split.
  - intros Hin. apply list_elem_of_fmap in Hin as ([k' v] & Hk & Hin).
    cbn in Hk. subst k.
    destruct (list_find_elem_of (λ p : string * PyVal, p.1 = k') kv (k', v) Hin eq_refl)
      as [[i [k2 v2]] Hfind].
    rewrite Hfind. by eexists.
  - intros Hout. destruct (list_find _ kv) as [[i [k' v]]|] eqn:Hfind; [|done].
    apply list_find_Some in Hfind as (Hlook & Heq & _). cbn in Heq. subst k'.
    exfalso. apply Hout. apply list_elem_of_fmap. exists (k, v).
    split; [done|]. by eapply list_elem_of_lookup_2.
Qed.

(** X10.  [build] subscripts [backend_options] for [target], [n_shots] and
    [noise_model], in this order, after everything else is built.  When the
    dictionary given lacks one of them, [build] raises a [KeyError] for the
    first it lacks: the Hamiltonians and the ansatz are built, the backend is
    not. *)
Theorem build_missing_backend_option (w w3 : World) kv (k : string) :
  build_objects w = (Ok (), w3) →
  attrs w !! "backend_options" = Some (VDict kv) →
  head (missing_backend_options kv) = Some k →
  build w = (Raise (MkError KeyError k), w3) ∧
  attrs w3 !! "backend" = attrs w !! "backend".
Proof.
  intros Hobj Hopts Hmissing.
  pose proof (stable_run _ _ _ _ _ build_objects_frame Hobj) as Hframe.
  split; [|apply Hframe; by right].
  assert (Hopts3 : attrs w3 !! "backend_options" = Some (VDict kv)).
  { rewrite Hframe, Hopts; [done|]. left. by repeat split. }
  rewrite build_split, bind_unfold, Hobj.
  unfold build_backend. rewrite bind_unfold, (getattr_some _ _ _ Hopts3).
  unfold missing_backend_options in Hmissing. cbn [filter list_filter] in Hmissing.
  rewrite bind_unfold. unfold call at 1.
  destruct (decide ("target" ∉ kv.*1)) as [Hout|Hin%dec_stable].
  { injection Hmissing as <-. by rewrite (proj2 (subscript_dict kv _) Hout). }
  destruct (proj1 (subscript_dict kv _) Hin) as [target ->].
  rewrite bind_unfold. unfold call at 1.
  destruct (decide ("n_shots" ∉ kv.*1)) as [Hout|Hin2%dec_stable].
  { injection Hmissing as <-. by rewrite (proj2 (subscript_dict kv _) Hout). }
  destruct (proj1 (subscript_dict kv _) Hin2) as [n_shots ->].
  rewrite bind_unfold. unfold call at 1.
  destruct (decide ("noise_model" ∉ kv.*1)) as [Hout|Hin3%dec_stable].
  { injection Hmissing as <-. by rewrite (proj2 (subscript_dict kv _) Hout). }
  discriminate.
Qed.

End BuildMore.

Lemma build_keeps_configuration_witness :
  attrs (build toy_h2).2 !! "molecule" = attrs toy_h2 !! "molecule".
Proof. apply (build_keeps_configuration toy_h2 "molecule"). by repeat split. Defined.

Lemma build_raise_no_backend_witness :
  attrs (build (toy_ucc1 false)).2 !! "backend" = attrs (toy_ucc1 false) !! "backend".
Proof.
  apply (build_raise_no_backend (toy_ucc1 false) (build (toy_ucc1 false)).2
           (MkError ValueError
              "Parameter up_then_down must be set to True for Ansatze.UCC1 ansatz.")).
  vm_compute. reflexivity.
Defined.

Lemma build_hamiltonians_data_flow_witness :
  ∃ molecule given_mf mean_field frozen_orbitals m fermionic mapping flag q,
    attrs toy_h2 !! "molecule" = Some molecule ∧
    attrs toy_h2 !! "mean_field" = Some given_mf ∧
    (if truthy given_mf then mean_field = given_mf
     else prepare_mf_RHF molecule = Ok mean_field) ∧
    attrs toy_h2 !! "frozen_orbitals" = Some frozen_orbitals ∧
    MolecularData molecule mean_field frozen_orbitals = Ok m ∧
    get_molecular_hamiltonian m = Ok fermionic ∧
    attrs toy_h2 !! "qubit_mapping" = Some mapping ∧
    attrs toy_h2 !! "up_then_down" = Some flag ∧
    fermion_to_qubit_mapping fermionic mapping (n_qubits m) (n_electrons m) flag = Ok q ∧
    attrs (build_hamiltonians toy_h2).2 !! "mean_field" = Some mean_field ∧
    attrs (build_hamiltonians toy_h2).2 !! "qemist_molecule" = Some (VMolData m) ∧
    attrs (build_hamiltonians toy_h2).2 !! "fermionic_hamiltonian" = Some fermionic ∧
    attrs (build_hamiltonians toy_h2).2 !! "qubit_hamiltonian" = Some (VQubitOp q).
Proof.
  apply (build_hamiltonians_data_flow toy_h2 (build_hamiltonians toy_h2).2).
  vm_compute. reflexivity.
Defined.

Lemma build_return_is_built_witness :
  ∃ a b q m fermionic params,
    attrs (build toy_h2).2 !! "ansatz" = Some (VAnsatz a) ∧
    attrs (build toy_h2).2 !! "backend" = Some (VBackend b) ∧
    attrs (build toy_h2).2 !! "qubit_hamiltonian" = Some (VQubitOp q) ∧
    attrs (build toy_h2).2 !! "qemist_molecule" = Some (VMolData m) ∧
    attrs (build toy_h2).2 !! "fermionic_hamiltonian" = Some fermionic ∧
    attrs (build toy_h2).2 !! "initial_var_params" = Some params.
Proof.
  apply (build_return_is_built toy_h2 (build toy_h2).2).
  vm_compute. reflexivity.
Defined.

Lemma build_reduced_ucc_return_witness :
  attrs (toy_ucc1 true) !! "qubit_mapping" = Some (VStr "jw") ∧
  (∃ flag, attrs (toy_ucc1 true) !! "up_then_down" = Some flag ∧ truthy flag = true) ∧
  (∃ q, attrs (build (toy_ucc1 true)).2 !! "qubit_hamiltonian" = Some (VQubitOp q) ∧
        count_qubits (VQubitOp q) = Ok 4%Z) ∧
  ∃ a0 a1 a2 given params,
    new_RUCC 1 = Ok a0 ∧
    set_var_params a0 given = (Ok params, a1) ∧
    build_circuit a1 = (Ok (), a2) ∧
    attrs (build (toy_ucc1 true)).2 !! "ansatz" = Some (VAnsatz a2).
Proof.
  apply (build_reduced_ucc_return (toy_ucc1 true) (build (toy_ucc1 true)).2 UCC1).
  - vm_compute. reflexivity.
  - reflexivity.
  - discriminate.
Defined.

Lemma build_rejects_invalid_ansatz_witness :
  build (toy_new [("molecule", VObj "H2"); ("ansatz", VStr "UCCSD")]) =
    (Raise (MkError TypeError
              ("Invalid ansatz dataype. Expecting instance of Ansatz class, or one of built-in options:"
                 ++ newline ++ tab ++ py_str (VSet [UCCSD; UCC1; UCC3]))),
     (build_hamiltonians (toy_new [("molecule", VObj "H2"); ("ansatz", VStr "UCCSD")])).2).
Proof.
  apply (build_rejects_invalid_ansatz
           (toy_new [("molecule", VObj "H2"); ("ansatz", VStr "UCCSD")]) _ (VStr "UCCSD")).
  - vm_compute. reflexivity.
  - reflexivity.
  - exact I.
  - reflexivity.
Defined.

Lemma build_missing_backend_option_witness :
  build (toy_new [("molecule", VObj "H2");
                  ("backend_options", VDict [("target", VStr "qulacs")])]) =
    (Raise (MkError KeyError "n_shots"),
     (build_objects (toy_new [("molecule", VObj "H2");
                              ("backend_options", VDict [("target", VStr "qulacs")])])).2)
  ∧ attrs (build_objects (toy_new [("molecule", VObj "H2");
                                   ("backend_options", VDict [("target", VStr "qulacs")])])).2
      !! "backend"
    = attrs (toy_new [("molecule", VObj "H2");
                      ("backend_options", VDict [("target", VStr "qulacs")])]) !! "backend".
Proof.
  apply (build_missing_backend_option
           (toy_new [("molecule", VObj "H2");
                     ("backend_options", VDict [("target", VStr "qulacs")])])
           _ [("target", VStr "qulacs")] "n_shots").
  - vm_compute. reflexivity.
  - reflexivity.
  - reflexivity.
Defined.

(** ** [get_rdm] *)

Section RdmMore.
Context `{Optimizers}.

Lemma energy_estimation_rdm_frame var_params :
  stable (same_attrs rdm_untouched) (energy_estimation var_params).
Proof.
  eapply stable_same_attrs_weaken; [|apply energy_estimation_frame].
  unfold rdm_untouched. intros k ?. destruct_and!. done.
Qed.

Lemma rdm_iteration_frame var_params ikey key st :
  stable (same_attrs rdm_untouched) (rdm_iteration var_params ikey key st).
Proof.
  unfold rdm_iteration, map_term, term_energy.
  destruct key; [apply stable_ret, _|].
  repeat first [apply energy_estimation_rdm_frame | rdm_frame_step].
Qed.

Lemma rdm_loop_frame var_params keys ikey st :
  stable (same_attrs rdm_untouched) (rdm_loop var_params ikey keys st).
Proof.
  revert ikey st. induction keys as [|key keys IH]; intros ikey st; cbn [rdm_loop].
  - apply stable_ret, _.
  - apply stable_bind; [apply _ | apply rdm_iteration_frame | intros st'; apply IH].
Qed.

(** X11.  [get_rdm] assigns the active Hamiltonian and nothing else, and its
    evaluations change the ansatz and the backend only: every other
    attribute, the fermionic Hamiltonian and the recorded optimum among
    them, is as it was, whether [get_rdm] returns or raises. *)
Theorem get_rdm_keeps_attributes var_params (w : World) (k : string) :
  rdm_untouched k → attrs (get_rdm var_params w).2 !! k = attrs w !! k.
Proof.
  intros Hk.
  assert (Hst : stable (same_attrs rdm_untouched) (get_rdm var_params)).
  { unfold get_rdm. repeat first [apply rdm_loop_frame | rdm_frame_step]. }
  by apply Hst.
Qed.

(** The lookup lists grow together. *)
Lemma term_energy_aligned var_params q st (w : World) e st' w' :
  length (lookup_ham st) = length (lookup_val st) →
  term_energy var_params q st w = (Ok (e, st'), w') →
  length (lookup_ham st') = length (lookup_val st').
Proof.
  intros Hlen Hrun.
  destruct (list_find (λ t, t = terms q) (lookup_ham st)) as [[i t]|] eqn:Hfind.
  - rewrite (term_energy_hit _ _ _ _ _ _ Hfind) in Hrun.
    destruct (lookup_val st !! i); [|done]. by injection Hrun as _ <- _.
  - destruct (term_energy_miss var_params q st w Hfind) as (_ & _ & Hok).
    destruct (Hok _ _ _ Hrun) as (-> & -> & _). rewrite !length_app. cbn. lia.
Qed.

Lemma rdm_iteration_aligned var_params ikey key st (w : World) st' w' :
  length (lookup_ham st) = length (lookup_val st) →
  rdm_iteration var_params ikey key st w = (Ok st', w') →
  length (lookup_ham st') = length (lookup_val st').
Proof.
  intros Hlen Hrun.
  destruct (decide (key = [])) as [->|Hkey]; [by injection Hrun as <- _|].
  apply rdm_iteration_inv in Hrun
    as [[_ [e [=]]]|(h & q & rt & _ & _ & Hterm & Hacc)]; [|done].
  destruct rt as [[e st1]|]; [|done].
  symmetry in Hacc. apply accumulate_ok in Hacc as (-> & -> & _).
  by eapply term_energy_aligned.
Qed.

(** X12.  The two lookup lists of [get_rdm] stay of equal length through the
    loop, so the energy of a structure found in [lookup_ham] is always found
    in [lookup_val]: a cache hit returns an energy and never raises. *)
Theorem lookup_lists_aligned var_params keys ikey st (w : World) st' w' :
  length (lookup_ham st) = length (lookup_val st) →
  rdm_loop var_params ikey keys st w = (Ok st', w') →
  length (lookup_ham st') = length (lookup_val st') ∧
  ∀ q i t w2,
    list_find (λ t, t = terms q) (lookup_ham st') = Some (i, t) →
    ∃ e, lookup_val st' !! i = Some e ∧
         term_energy var_params q st' w2 = (Ok (e, st'), w2).
Proof.
  intros Hlen Hrun.
  assert (Hlen' : length (lookup_ham st') = length (lookup_val st')).
  { revert ikey st w Hlen Hrun.
    induction keys as [|key keys IH]; intros ikey st w Hlen Hrun.
    - by injection Hrun as <- _.
    - cbn [rdm_loop] in Hrun.
      apply bind_ok_inv in Hrun as (st1 & w1 & Hiter & Hrun).
      eapply IH; [|exact Hrun]. by eapply rdm_iteration_aligned. }
  split; [done|]. intros q i t w2 Hfind.
  pose proof Hfind as (Hi & _)%list_find_Some.
  apply lookup_lt_Some in Hi. rewrite Hlen' in Hi.
  apply lookup_lt_is_Some in Hi as [e He].
  exists e. split; [done|]. by rewrite (term_energy_hit _ _ _ _ _ _ Hfind), He.
Qed.

Lemma nd_iadd_shape {K} `{Countable K} in_bounds (a a' : ndarray K) (idx : K) (x : float) :
  nd_iadd in_bounds a idx x = Ok a' →
  cells_in_bounds in_bounds a →
  nd_size a' = nd_size a ∧ cells_in_bounds in_bounds a'.
Proof.
  unfold nd_iadd. destruct (in_bounds _ _) eqn:Hin; [|done].
  intros [= <-] Hwf. split; [done|]. intros idx'. cbn.
  destruct (decide (idx = idx')) as [<-|Hne]; [done|].
  rewrite lookup_insert_ne by done. apply Hwf.
Qed.

Lemma accumulate_shape (key : Key) (e : float) (st st' : RdmLocals) :
  accumulate key e st = Ok st' →
  cells_in_bounds in_bounds2 (rdm1_np st) → cells_in_bounds in_bounds4 (rdm2_np st) →
  nd_size (rdm1_np st') = nd_size (rdm1_np st) ∧
  nd_size (rdm2_np st') = nd_size (rdm2_np st) ∧
  cells_in_bounds in_bounds2 (rdm1_np st') ∧ cells_in_bounds in_bounds4 (rdm2_np st').
Proof.
  intros Hacc Hwf1 Hwf2. unfold accumulate in Hacc.
  destruct key as [|a [|b [|c [|d [|? ?]]]]]; try (by injection Hacc as <-).
  - destruct (nd_iadd in_bounds2 _ _ _) as [rdm1|] eqn:Hadd; [|done].
    injection Hacc as <-. cbn.
    by destruct (nd_iadd_shape _ _ _ _ _ Hadd Hwf1).
  - destruct (_ || _).
    + destruct (nd_iadd in_bounds4 (rdm2_np st) _ _) as [rdm2|] eqn:Hadd1; [|done].
      destruct (nd_iadd in_bounds4 rdm2 _ _) as [rdm2'|] eqn:Hadd2; [|done].
      injection Hacc as <-. cbn.
      destruct (nd_iadd_shape _ _ _ _ _ Hadd1 Hwf2) as [Hs1 Hwf2'].
      destruct (nd_iadd_shape _ _ _ _ _ Hadd2 Hwf2') as [Hs2 Hwf2''].
      split_and!; [done | congruence | done..].
    + destruct (nd_iadd in_bounds4 (rdm2_np st) _ _) as [rdm2|] eqn:Hadd; [|done].
      injection Hacc as <-. cbn.
      by destruct (nd_iadd_shape _ _ _ _ _ Hadd Hwf2).
Qed.

Lemma term_energy_arrays var_params q st (w : World) e st' w' :
  term_energy var_params q st w = (Ok (e, st'), w') →
  rdm1_np st' = rdm1_np st ∧ rdm2_np st' = rdm2_np st.
Proof.
  intros Hrun.
  destruct (list_find (λ t, t = terms q) (lookup_ham st)) as [[i t]|] eqn:Hfind.
  - rewrite (term_energy_hit _ _ _ _ _ _ Hfind) in Hrun.
    destruct (lookup_val st !! i); [|done]. by injection Hrun as _ <- _.
  - destruct (term_energy_miss var_params q st w Hfind) as (_ & _ & Hok).
    by destruct (Hok _ _ _ Hrun) as (_ & _ & -> & ->).
Qed.

Lemma rdm_loop_shape var_params keys ikey st (w : World) st' w' :
  rdm_loop var_params ikey keys st w = (Ok st', w') →
  cells_in_bounds in_bounds2 (rdm1_np st) → cells_in_bounds in_bounds4 (rdm2_np st) →
  nd_size (rdm1_np st') = nd_size (rdm1_np st) ∧
  nd_size (rdm2_np st') = nd_size (rdm2_np st) ∧
  cells_in_bounds in_bounds2 (rdm1_np st') ∧ cells_in_bounds in_bounds4 (rdm2_np st').
Proof.
  revert ikey st w. induction keys as [|key keys IH]; intros ikey st w Hrun Hwf1 Hwf2.
  - by injection Hrun as <- _.
  - cbn [rdm_loop] in Hrun.
    apply bind_ok_inv in Hrun as (st1 & w1 & Hiter & Hrun).
    assert (nd_size (rdm1_np st1) = nd_size (rdm1_np st) ∧
            nd_size (rdm2_np st1) = nd_size (rdm2_np st) ∧
            cells_in_bounds in_bounds2 (rdm1_np st1) ∧
            cells_in_bounds in_bounds4 (rdm2_np st1)) as (Hs1 & Hs2 & Hwf1' & Hwf2').
    { destruct (decide (key = [])) as [->|Hkey]; [by injection Hiter as <- _|].
      apply rdm_iteration_inv in Hiter
        as [[_ [e [=]]]|(h & q & rt & _ & _ & Hterm & Hacc)]; [|done].
      destruct rt as [[e st2]|]; [|done].
      apply term_energy_arrays in Hterm as [Hr1 Hr2].
      symmetry in Hacc. apply accumulate_shape in Hacc; rewrite ?Hr1, ?Hr2 in *; done. }
    destruct (IH _ _ _ Hrun Hwf1' Hwf2') as (? & ? & ? & ?).
    split_and!; [congruence | congruence | done..].
Qed.

(** X13.  The matrices that [get_rdm] returns have the size [n_mol_orbitals],
    the number of orbital energies of the ansatz's mean field, on every
    axis, and every cell they hold is within that size. *)
Theorem get_rdm_shape var_params (w w' : World) rdm1 rdm2 :
  get_rdm var_params w = (Ok (rdm1, rdm2), w') →
  ∃ a n,
    attrs w !! "ansatz" = Some (VAnsatz a) ∧ mo_energy_len a = Ok n ∧
    nd_size rdm1 = n ∧ nd_size rdm2 = n ∧
    cells_in_bounds in_bounds2 rdm1 ∧ cells_in_bounds in_bounds4 rdm2.
Proof.
  unfold get_rdm. intros Hrun.
  apply bind_ok_inv in Hrun as (tmp & ? & [_ ->]%getattr_ok_inv & Hrun).
  apply bind_ok_inv in Hrun as (ansatz & ? & [Hansatz ->]%getattr_ok_inv & Hrun).
  apply bind_ok_inv in Hrun as (n & w0 & Hn & Hrun).
  destruct ansatz; try discriminate. apply call_ok_inv in Hn as [Hn ->].
  apply bind_ok_inv in Hrun as (fh & ? & [_ ->]%getattr_ok_inv & Hrun).
  apply bind_ok_inv in Hrun as (keys & w0 & _ & Hrun).
  apply bind_ok_inv in Hrun as (st & w1 & Hloop & Hrun).
  apply bind_ok_inv in Hrun as ([] & w2 & _ & [= <- <- _]).
  apply rdm_loop_shape in Hloop as (Hs1 & Hs2 & Hwf1 & Hwf2).
  - exists a, n. done.
  - intros idx [x Hx]. cbn in Hx. by rewrite lookup_empty in Hx.
  - intros idx [x Hx]. cbn in Hx. by rewrite lookup_empty in Hx.
Qed.

Lemma rdm_loop_constants var_params keys ikey st (w : World) :
  Forall (λ key : Key, key = []) keys →
  rdm_loop var_params ikey keys st w = (Ok st, w).
Proof.
  revert ikey. induction keys as [|key keys IH]; intros ikey Hall; [done|].
  apply Forall_cons in Hall as [-> Hall]. cbn [rdm_loop]. rewrite bind_unfold. cbn.
  by apply IH.
Qed.

(** X14.  On a Hamiltonian that has no term but the constant, [get_rdm]
    returns two matrices of zeros and leaves the world as it was: the
    estimator is not called and nothing is mapped. *)
Theorem get_rdm_constant_only var_params (w : World) tmp a n h :
  attrs w !! "qubit_hamiltonian" = Some tmp →
  attrs w !! "ansatz" = Some (VAnsatz a) → mo_energy_len a = Ok n →
  attrs w !! "fermionic_hamiltonian" = Some (VFermionOp h) →
  Forall (λ term : Key * float, term.1 = []) h →
  get_rdm var_params w = (Ok (np_zeros n, np_zeros n), w).
Proof.
  intros Htmp Ha Hn Hh Hall. unfold get_rdm.
  rewrite bind_unfold, (getattr_some _ _ _ Htmp).
  rewrite bind_unfold, (getattr_some _ _ _ Ha).
  rewrite bind_unfold. unfold call at 1. rewrite Hn.
  rewrite bind_unfold, (getattr_some _ _ _ Hh).
  rewrite bind_unfold. cbn [mret M_ret].
  rewrite bind_unfold, rdm_loop_constants.
  2:{ apply Forall_fmap. exact Hall. }
  rewrite bind_unfold. cbn. f_equal.
  destruct w as [attrs0 out calls]. cbn in *. f_equal. by apply insert_id.
Qed.

End RdmMore.

Section RdmComplete.
Context `{Optimizers}.

Lemma getattr_bind {X} name (f : PyVal → M X) (w : World) :
  (getattr name ≫= f) w =
    match attrs w !! name with
    | Some v => f v w
    | None =>
        (Raise (MkError AttributeError
                  ("'VQESolver' object has no attribute '" ++ name ++ "'")), w)
    end.
Proof. rewrite bind_unfold. unfold getattr. by destruct (attrs w !! name). Qed.

(** The mapping of a term depends on the world through the mapping, the
    molecular data and the spin ordering only. *)
Lemma map_term_agree hamiltonian_temp (w w1 : World) :
  same_attrs rdm_untouched w w1 →
  map_term hamiltonian_temp w1 = ((map_term hamiltonian_temp w).1, w1).
Proof.
  intros Hagree.
  assert (Hm : attrs w1 !! "qubit_mapping" = attrs w !! "qubit_mapping")
    by (apply Hagree; by repeat split).
  assert (Hq : attrs w1 !! "qemist_molecule" = attrs w !! "qemist_molecule")
    by (apply Hagree; by repeat split).
  assert (Hu : attrs w1 !! "up_then_down" = attrs w !! "up_then_down")
    by (apply Hagree; by repeat split).
  unfold map_term.
  rewrite !getattr_bind, Hm.
  destruct (attrs w !! "qubit_mapping") as [mapping|]; [|reflexivity].
  rewrite !getattr_bind, Hq.
  destruct (attrs w !! "qemist_molecule") as [m|] eqn:Hqm; [|reflexivity].
  rewrite !bind_unfold.
  destruct m; try reflexivity. cbn [mret M_ret].
  rewrite !getattr_bind, Hq, Hqm. rewrite !bind_unfold. cbn [mret M_ret].
  rewrite !getattr_bind, Hu.
  destruct (attrs w !! "up_then_down") as [flag|]; [|reflexivity].
  rewrite !bind_unfold. unfold call.
  by destruct (fermion_to_qubit_mapping _ _ _ _ _).
Qed.

Lemma rdm_iteration_evaluates var_params h (w : World) ikey key st w1 st1 w2 :
  same_attrs rdm_untouched w w1 →
  attrs w !! "fermionic_hamiltonian" = Some (VFermionOp h) →
  rdm_iteration var_params ikey key st w1 = (Ok st1, w2) →
  (∀ t, t ∈ lookup_ham st → t ∈ lookup_ham st1) ∧
  (key ≠ [] →
   ∃ q, map_term (VFermionOp (select_term ikey key h)) w = (Ok q, w) ∧
        terms q ∈ lookup_ham st1).
Proof.
  intros Hagree Hh Hrun.
  destruct (decide (key = [])) as [->|Hkey]; [by injection Hrun as <- _|].
  apply rdm_iteration_inv in Hrun
    as [[_ [e [=]]]|(h1 & q & rt & Hh1 & Hmap & Hterm & Hacc)]; [|done].
  assert (h1 = h) as ->.
  { rewrite (Hagree "fermionic_hamiltonian"), Hh in Hh1 by by repeat split.
    by injection Hh1. }
  rewrite (map_term_agree _ w w1 Hagree) in Hmap.
  destruct rt as [[e st2]|]; [|done].
  symmetry in Hacc. apply accumulate_ok in Hacc as (-> & _ & _).
  assert (Hq : map_term (VFermionOp (select_term ikey key h)) w = (Ok q, w)).
  { pose proof (map_term_pure (VFermionOp (select_term ikey key h)) w) as Hpure.
    destruct (map_term _ w) as [r w0]. cbn in *. by simplify_eq. }
  destruct (list_find (λ t, t = terms q) (lookup_ham st)) as [[i t]|] eqn:Hfind.
  - rewrite (term_energy_hit _ _ _ _ _ _ Hfind) in Hterm.
    destruct (lookup_val st !! i); [|done]. injection Hterm as _ <- _.
    split; [done|]. intros _. exists q. split; [done|].
    apply list_find_Some in Hfind as (Hi & -> & _). by eapply list_elem_of_lookup_2.
  - destruct (term_energy_miss var_params q st w1 Hfind) as (_ & _ & Hok).
    destruct (Hok _ _ _ Hterm) as (-> & _).
    split; [intros t Ht; apply elem_of_app; by left|].
    intros _. exists q. split; [done|]. apply elem_of_app. right. apply list_elem_of_here.
Qed.

Lemma rdm_loop_evaluates var_params h (w : World) keys ikey st w1 st' w' :
  same_attrs rdm_untouched w w1 →
  attrs w !! "fermionic_hamiltonian" = Some (VFermionOp h) →
  rdm_loop var_params ikey keys st w1 = (Ok st', w') →
  (∀ t, t ∈ lookup_ham st → t ∈ lookup_ham st') ∧
  ∀ j key, keys !! j = Some key → key ≠ [] →
    ∃ q, map_term (VFermionOp (select_term (ikey + j) key h)) w = (Ok q, w) ∧
         terms q ∈ lookup_ham st'.
Proof.
  revert ikey st w1. induction keys as [|key keys IH]; intros ikey st w1 Hagree Hh Hrun.
  - injection Hrun as <- _. split; [done|]. intros j key Hj. by rewrite lookup_nil in Hj.
  - cbn [rdm_loop] in Hrun.
    apply bind_ok_inv in Hrun as (st1 & w2 & Hiter & Hrun).
    pose proof (stable_run _ _ _ _ _ (rdm_iteration_frame _ _ _ _) Hiter) as Hframe.
    assert (Hagree2 : same_attrs rdm_untouched w w2) by (by etransitivity).
    destruct (rdm_iteration_evaluates _ _ _ _ _ _ _ _ _ Hagree Hh Hiter) as [Hgrow Hhere].
    destruct (IH _ _ _ Hagree2 Hh Hrun) as [Hgrow' Hrest].
    split; [intros t Ht; by apply Hgrow', Hgrow|].
    intros [|j] key' Hj Hne; cbn in Hj.
    + injection Hj as <-. destruct (Hhere Hne) as (q & Hq & Hin).
      exists q. rewrite Nat.add_0_r. split; [done | by apply Hgrow'].
    + destruct (Hrest j key' Hj Hne) as (q & Hq & Hin).
      exists q. replace (ikey + S j) with (S ikey + j) by lia. done.
Qed.

(** The calls logged by a loop that returns are those of the structures in
    the lookup list it leaves. *)
Lemma rdm_loop_calls_ok var_params keys ikey st (w : World) st' w' calls0 new :
  estimator_calls w = (calls0 ++ ((λ q, Some (VQubitOp q)) <$> new))%list →
  terms <$> new = lookup_ham st →
  NoDup (lookup_ham st) →
  rdm_loop var_params ikey keys st w = (Ok st', w') →
  ∃ new',
    estimator_calls w' = (calls0 ++ ((λ q, Some (VQubitOp q)) <$> new'))%list ∧
    NoDup (terms <$> new') ∧ terms <$> new' = lookup_ham st'.
Proof.
  revert ikey st w new. induction keys as [|key keys IH]; intros ikey st w new Hcalls Hnew Hnodup.
  - intros [= <- <-]. exists new. by rewrite Hnew.
  - cbn [rdm_loop]. intros Hrun.
    apply bind_ok_inv in Hrun as (st1 & w1 & Hiter & Hrun).
    destruct (rdm_iteration_calls _ _ _ _ _ _ _ _ _ Hcalls Hnew Hnodup Hiter)
      as (new' & Hcalls' & Hnodup' & Hnew').
    specialize (Hnew' st1 eq_refl).
    eapply IH; [exact Hcalls' | exact Hnew' | by rewrite <- Hnew' | exact Hrun].
Qed.

(** X15.  When [get_rdm] returns, the structure of every non-empty term of the
    Hamiltonian, as the mapping and the compression give it for the term
    selected alone, is the structure of exactly one of the Hamiltonians on
    which the estimator was called. *)
Theorem get_rdm_evaluates_every_structure var_params (w w' : World) rdm h :
  get_rdm var_params w = (Ok rdm, w') →
  attrs w !! "fermionic_hamiltonian" = Some (VFermionOp h) →
  ∃ new : list QubitOp,
    estimator_calls w' = (estimator_calls w ++ ((λ q, Some (VQubitOp q)) <$> new))%list ∧
    NoDup (terms <$> new) ∧
    ∀ ikey key, h.*1 !! ikey = Some key → key ≠ [] →
      ∃ q, map_term (VFermionOp (select_term ikey key h)) w = (Ok q, w) ∧
           terms q ∈ terms <$> new.
Proof.
  unfold get_rdm. intros Hrun Hh.
  apply bind_ok_inv in Hrun as (tmp & ? & [_ ->]%getattr_ok_inv & Hrun).
  apply bind_ok_inv in Hrun as (ansatz & ? & [_ ->]%getattr_ok_inv & Hrun).
  apply bind_ok_inv in Hrun as (n & w0 & Hn & Hrun).
  assert (w0 = w) as -> by (destruct ansatz; by injection Hn).
  apply bind_ok_inv in Hrun as (fh & ? & [Hfh ->]%getattr_ok_inv & Hrun).
  rewrite Hh in Hfh. injection Hfh as <-.
  apply bind_ok_inv in Hrun as (keys & w0 & [= <- <-] & Hrun).
  apply bind_ok_inv in Hrun as (st & w1 & Hloop & Hrun).
  apply bind_ok_inv in Hrun as ([] & w2 & [= <-] & [= _ <-]).
  cbn [estimator_calls].
  assert (∃ new : list QubitOp,
            estimator_calls w1
              = (estimator_calls w ++ ((λ q, Some (VQubitOp q)) <$> new))%list ∧
            NoDup (terms <$> new) ∧ terms <$> new = lookup_ham st)
    as (new & Hcalls & Hnodup & Hnew).
  { eapply (rdm_loop_calls_ok _ _ _ _ _ _ _ (estimator_calls w) []); [| | |exact Hloop].
    - by rewrite app_nil_r.
    - done.
    - apply NoDup_nil_2. }
  destruct (rdm_loop_evaluates _ h w _ _ _ _ _ _ ltac:(reflexivity) Hh Hloop) as [_ Hall].
  exists new. split_and!; [done..|].
  intros ikey key Hkey Hne. rewrite Hnew. exact (Hall ikey key Hkey Hne).
Qed.

End RdmComplete.

Section Coefficients.
Context `{Optimizers}.

Lemma ignores_ret {X} k (x : X) : ignores k (mret x).
Proof. by intros v w. Qed.

Lemma ignores_raise {X} k c msg : ignores k (raise c msg : M X).
Proof. by intros v w. Qed.

Lemma ignores_call {X} k (r : Res X) : ignores k (call r).
Proof. by intros v w. Qed.

Lemma ignores_no_attribute {X} k val name : ignores k (no_attribute val name : M X).
Proof. by intros v w. Qed.

Lemma ignores_print k line : ignores k (print line).
Proof. by intros v w. Qed.

Lemma ignores_getattr k name : name ≠ k → ignores k (getattr name).
Proof.
  intros Hne v w. unfold getattr, with_attr. cbn [attrs].
  rewrite lookup_insert_ne by done. by destruct (attrs w !! name).
Qed.

Lemma ignores_setattr k name val : name ≠ k → ignores k (setattr name val).
Proof.
  intros Hne v w. unfold setattr, with_attr. cbn. f_equal. f_equal.
  by apply insert_insert_ne.
Qed.

Lemma ignores_log k : k ≠ "qubit_hamiltonian" → ignores k log_estimator_call.
Proof.
  intros Hne v w. unfold log_estimator_call, with_attr. cbn.
  by rewrite lookup_insert_ne.
Qed.

Lemma ignores_bind {X Y} k (c : M X) (f : X → M Y) :
  ignores k c → (∀ x, ignores k (f x)) → ignores k (c ≫= f).
Proof.
  intros Hc Hf v w. rewrite !bind_unfold, Hc.
  destruct (c w) as [[x|e] w1]; cbn [fst snd]; [apply Hf | done].
Qed.

(** Two runs that agree up to [g] on a computation agree on what follows. *)
Lemma bind_transport {X Y} (c : M X) (f : X → M Y) (g : World → World) (w w2 : World) :
  c w2 = ((c w).1, g (c w).2) →
  (∀ x w1, c w = (Ok x, w1) → f x (g w1) = ((f x w1).1, g (f x w1).2)) →
  (c ≫= f) w2 = (((c ≫= f) w).1, g ((c ≫= f) w).2).
Proof.
  intros Hc Hf. rewrite !bind_unfold, Hc.
  destruct (c w) as [[x|e] w1]; cbn [fst snd]; [by apply Hf | done].
Qed.

End Coefficients.

(** One step of a proof that a computation ignores an attribute. *)
Ltac ignores_step :=
  lazymatch goal with
  | |- ignores _ (mbind _ _) => apply ignores_bind; [| intros ?]
  | |- ignores _ (mret _) => apply ignores_ret
  | |- ignores _ (raise _ _) => apply ignores_raise
  | |- ignores _ (call _) => apply ignores_call
  | |- ignores _ (getattr _) => apply ignores_getattr; done
  | |- ignores _ (setattr _ _) => apply ignores_setattr; done
  | |- ignores _ (no_attribute _ _) => apply ignores_no_attribute
  | |- ignores _ (print _) => apply ignores_print
  | |- ignores _ log_estimator_call => apply ignores_log; done
  | |- ignores _ (match ?x with _ => _ end) => destruct x
  end.

Section CoefficientsMore.
Context `{Optimizers}.

Lemma energy_estimation_ignores var_params :
  ignores "fermionic_hamiltonian" (energy_estimation var_params).
Proof. unfold energy_estimation. repeat ignores_step. Qed.

Lemma map_term_ignores hamiltonian_temp :
  ignores "fermionic_hamiltonian" (map_term hamiltonian_temp).
Proof. unfold map_term. repeat ignores_step. Qed.

Lemma term_energy_ignores var_params q st :
  ignores "fermionic_hamiltonian" (term_energy var_params q st).
Proof.
  unfold term_energy.
  repeat first [apply energy_estimation_ignores | ignores_step].
Qed.

(** The Hamiltonian with one term selected depends on the keys only. *)
Lemma select_term_coefficients (ikey : nat) (key : Key) (h h2 : FermionicHamiltonian) :
  h2.*1 = h.*1 → select_term ikey key h2 = select_term ikey key h.
Proof.
  unfold select_term. revert h2.
  induction h as [|[k c] h IH]; intros [|[k2 c2] h2]; try done.
  cbn. intros [= -> Hrest]. f_equal. by apply IH.
Qed.

Lemma rdm_iteration_coefficients var_params ikey key st (w : World) h h2 :
  attrs w !! "fermionic_hamiltonian" = Some (VFermionOp h) →
  h2.*1 = h.*1 →
  rdm_iteration var_params ikey key st (with_attr "fermionic_hamiltonian" (VFermionOp h2) w) =
    ((rdm_iteration var_params ikey key st w).1,
     with_attr "fermionic_hamiltonian" (VFermionOp h2) (rdm_iteration var_params ikey key st w).2).
Proof.
  intros Hh Hkeys. unfold rdm_iteration.
  destruct key as [|ele key]; [done|].
  rewrite !(bind_unfold (getattr _)).
  rewrite (getattr_some _ _ w Hh).
  rewrite (getattr_some _ (VFermionOp h2) (with_attr _ _ w)).
  2:{ cbn. apply lookup_insert_eq. }
  rewrite !(bind_unfold (mret _)). cbn [mret M_ret].
  rewrite (select_term_coefficients _ _ _ _ Hkeys).
  assert (Hst : ignores "fermionic_hamiltonian"
                  (qubit_hamiltonian2 ← map_term (VFermionOp (select_term ikey (ele :: key) h));
                   '(opt_energy2, st1) ← term_energy var_params qubit_hamiltonian2 st;
                   call (accumulate (ele :: key) opt_energy2 st1))).
  { repeat first [apply map_term_ignores | apply term_energy_ignores | ignores_step]. }
  apply Hst.
Qed.

Lemma rdm_loop_coefficients var_params keys ikey st (w : World) h h2 :
  attrs w !! "fermionic_hamiltonian" = Some (VFermionOp h) →
  h2.*1 = h.*1 →
  rdm_loop var_params ikey keys st (with_attr "fermionic_hamiltonian" (VFermionOp h2) w) =
    ((rdm_loop var_params ikey keys st w).1,
     with_attr "fermionic_hamiltonian" (VFermionOp h2) (rdm_loop var_params ikey keys st w).2).
Proof.
  intros Hh Hkeys. revert ikey st w Hh.
  induction keys as [|key keys IH]; intros ikey st w Hh; [done|].
  cbn [rdm_loop]. rewrite !bind_unfold.
  rewrite (rdm_iteration_coefficients _ _ _ _ _ _ _ Hh Hkeys).
  pose proof (rdm_iteration_frame var_params ikey key st w "fermionic_hamiltonian") as Hframe.
  destruct (rdm_iteration var_params ikey key st w) as [[st1|e] w1]; cbn [fst snd] in *; [|done].
  apply IH. rewrite Hframe; [done | by repeat split].
Qed.

(** X16.  The matrices of [get_rdm] do not depend on the coefficients of the
    fermionic Hamiltonian, only on its keys and their order: on a solver
    whose Hamiltonian has the same keys with other coefficients, [get_rdm]
    returns or raises in the same way, with the same matrices, the same
    prints and the same evaluations, and leaves that Hamiltonian. *)
Theorem get_rdm_ignores_coefficients var_params (w : World) h h2 :
  attrs w !! "fermionic_hamiltonian" = Some (VFermionOp h) →
  h2.*1 = h.*1 →
  get_rdm var_params (with_attr "fermionic_hamiltonian" (VFermionOp h2) w) =
    ((get_rdm var_params w).1,
     with_attr "fermionic_hamiltonian" (VFermionOp h2) (get_rdm var_params w).2).
Proof.
  intros Hh Hkeys. unfold get_rdm.
  apply bind_transport; [by apply ignores_getattr|].
  intros tmp ? [_ ->]%getattr_ok_inv.
  apply bind_transport; [by apply ignores_getattr|].
  intros ansatz ? [_ ->]%getattr_ok_inv.
  apply bind_transport; [by destruct ansatz|].
  intros n w0 Hn.
  assert (w0 = w) as -> by (destruct ansatz; by injection Hn). clear Hn.
  rewrite !(bind_unfold (getattr "fermionic_hamiltonian")).
  rewrite (getattr_some _ _ w Hh).
  rewrite (getattr_some _ (VFermionOp h2) (with_attr _ _ w)).
  2:{ cbn. apply lookup_insert_eq. }
  rewrite Hkeys.
  apply bind_transport; [done|]. intros keys ? [= <- <-].
  apply bind_transport; [exact (rdm_loop_coefficients _ _ _ _ _ _ _ Hh Hkeys)|].
  intros st w1 _.
  assert (Hst : ignores "fermionic_hamiltonian"
                  (setattr "qubit_hamiltonian" tmp ;; mret (rdm1_np st, rdm2_np st)))
    by repeat ignores_step.
  apply Hst.
Qed.

End CoefficientsMore.

Lemma get_rdm_keeps_attributes_witness :
  attrs (get_rdm toy_params toy_h2_built).2 !! "fermionic_hamiltonian"
    = attrs toy_h2_built !! "fermionic_hamiltonian".
Proof.
  apply (get_rdm_keeps_attributes toy_params toy_h2_built "fermionic_hamiltonian").
  by repeat split.
Defined.

Lemma lookup_lists_aligned_witness :
  length (lookup_ham (toy_ok (rdm_loop toy_params 0 toy_hamiltonian.*1 toy_locals toy_h2_built).1
                        toy_locals))
    = length (lookup_val (toy_ok (rdm_loop toy_params 0 toy_hamiltonian.*1 toy_locals
                                    toy_h2_built).1 toy_locals)) ∧
  ∀ q i t w2,
    list_find (λ t, t = terms q)
      (lookup_ham (toy_ok (rdm_loop toy_params 0 toy_hamiltonian.*1 toy_locals toy_h2_built).1
                     toy_locals)) = Some (i, t) →
    ∃ e, lookup_val (toy_ok (rdm_loop toy_params 0 toy_hamiltonian.*1 toy_locals
                               toy_h2_built).1 toy_locals) !! i = Some e ∧
         term_energy toy_params q
           (toy_ok (rdm_loop toy_params 0 toy_hamiltonian.*1 toy_locals toy_h2_built).1
              toy_locals) w2
         = (Ok (e, toy_ok (rdm_loop toy_params 0 toy_hamiltonian.*1 toy_locals toy_h2_built).1
                     toy_locals), w2).
Proof.
  apply (lookup_lists_aligned toy_params toy_hamiltonian.*1 0 toy_locals toy_h2_built _
           (rdm_loop toy_params 0 toy_hamiltonian.*1 toy_locals toy_h2_built).2).
  - reflexivity.
  - vm_compute. reflexivity.
Defined.

Lemma get_rdm_shape_witness :
  ∃ a n,
    attrs toy_h2_built !! "ansatz" = Some (VAnsatz a) ∧ mo_energy_len a = Ok n ∧
    nd_size (toy_ok (get_rdm toy_params toy_h2_built).1 (np_zeros 0, np_zeros 0)).1 = n ∧
    nd_size (toy_ok (get_rdm toy_params toy_h2_built).1 (np_zeros 0, np_zeros 0)).2 = n ∧
    cells_in_bounds in_bounds2
      (toy_ok (get_rdm toy_params toy_h2_built).1 (np_zeros 0, np_zeros 0)).1 ∧
    cells_in_bounds in_bounds4
      (toy_ok (get_rdm toy_params toy_h2_built).1 (np_zeros 0, np_zeros 0)).2.
Proof.
  apply (get_rdm_shape toy_params toy_h2_built (get_rdm toy_params toy_h2_built).2).
  vm_compute. reflexivity.
Defined.

Lemma get_rdm_constant_only_witness :
  get_rdm toy_params
    (with_attr "fermionic_hamiltonian" (VFermionOp [([], 0.5%float)]) toy_h2_built)
  = (Ok (np_zeros 2, np_zeros 2),
     with_attr "fermionic_hamiltonian" (VFermionOp [([], 0.5%float)]) toy_h2_built).
Proof.
  apply (get_rdm_constant_only toy_params
           (with_attr "fermionic_hamiltonian" (VFermionOp [([], 0.5%float)]) toy_h2_built)
           (VQubitOp (map fst toy_hamiltonian : @QubitOp toy_types)) (MkToyAnsatz 2 [0%float; 0%float] true) 2%N
           [([], 0.5%float)]).
  - reflexivity.
  - reflexivity.
  - reflexivity.
  - reflexivity.
  - by apply Forall_singleton.
Defined.

Lemma get_rdm_evaluates_every_structure_witness :
  ∃ new : list QubitOp,
    estimator_calls (get_rdm toy_params toy_h2_built).2
      = (estimator_calls toy_h2_built ++ ((λ q, Some (VQubitOp q)) <$> new))%list ∧
    NoDup (terms <$> new) ∧
    ∀ ikey key, toy_hamiltonian.*1 !! ikey = Some key → key ≠ [] →
      ∃ q, map_term (VFermionOp (select_term ikey key toy_hamiltonian)) toy_h2_built
             = (Ok q, toy_h2_built) ∧
           terms q ∈ terms <$> new.
Proof.
  apply (get_rdm_evaluates_every_structure toy_params toy_h2_built
           (get_rdm toy_params toy_h2_built).2
           (toy_ok (get_rdm toy_params toy_h2_built).1 (np_zeros 0, np_zeros 0))).
  - vm_compute. reflexivity.
  - reflexivity.
Defined.

Lemma get_rdm_ignores_coefficients_witness :
  get_rdm toy_params
    (with_attr "fermionic_hamiltonian" (VFermionOp toy_unit_hamiltonian) toy_h2_built)
  = ((get_rdm toy_params toy_h2_built).1,
     with_attr "fermionic_hamiltonian" (VFermionOp toy_unit_hamiltonian)
       (get_rdm toy_params toy_h2_built).2).
Proof.
  apply (get_rdm_ignores_coefficients toy_params toy_h2_built toy_hamiltonian
           toy_unit_hamiltonian).
  - reflexivity.
  - reflexivity.
Defined.

(** ** [energy_estimation] and [get_resources] *)

Section OutputMore.
Context `{Optimizers}.

(** X17.  What [energy_estimation] prints.  A call that returns prints one
    line, the energy with 7 decimals after a tab, when [verbose] is true,
    and nothing when it is false; a call that raises prints nothing. *)
Theorem energy_estimation_prints var_params (w : World) :
  stdout (energy_estimation var_params w).2 =
    (stdout w ++
       match (energy_estimation var_params w).1, attrs w !! "verbose" with
       | Ok energy, Some verbose => energy_lines verbose energy
       | _, _ => []
       end)%list.
Proof.
  destruct (energy_estimation var_params w) as [[energy|err] w'] eqn:Hrun; cbn [fst snd].
  - apply energy_estimation_ok in Hrun as [? ? ? ? ? ? verbose _ _ _ _ _ _ Hverbose ->].
    by rewrite Hverbose.
  - assert (stdout w' = stdout w) as ->.
    2:{ by rewrite app_nil_r. }
    unfold energy_estimation in Hrun.
    apply bind_inv in Hrun as [(e & [=] & _)|([] & w0 & [= <-] & Hrun)].
    apply bind_inv in Hrun as [(e & Hget & _)|(ansatz & w0 & Hget & Hrun)].
    { exact (stable_run same_out _ _ _ _ (stable_getattr _ _) Hget). }
    apply getattr_ok_inv in Hget as [_ ->].
    apply bind_inv in Hrun as [(e & Hupd & _)|([] & w1 & Hupd & Hrun)].
    { assert (Hst : stable same_out
                (match ansatz with
                 | VAnsatz a =>
                     let '(r, a') := update_var_params a (np_array var_params) in
                     setattr "ansatz" (VAnsatz a') ;; call r
                 | v => no_attribute v "update_var_params"
                 end)) by repeat out_step.
      exact (stable_run _ _ _ _ _ Hst Hupd). }
    assert (Hout1 : stdout w1 = stdout w).
    { assert (Hst : stable same_out
                (match ansatz with
                 | VAnsatz a =>
                     let '(r, a') := update_var_params a (np_array var_params) in
                     setattr "ansatz" (VAnsatz a') ;; call r
                 | v => no_attribute v "update_var_params"
                 end)) by repeat out_step.
      exact (stable_run _ _ _ _ _ Hst Hupd). }
    apply bind_inv in Hrun as [(e & Hget & _)|(backend & w0 & Hget & Hrun)].
    { by rewrite (stable_run same_out _ _ _ _ (stable_getattr _ _) Hget). }
    apply getattr_ok_inv in Hget as [_ ->].
    apply bind_inv in Hrun as [(e & Hval & _)|(energy & w2 & Hval & Hrun)].
    { match type of Hval with
      | ?m _ = _ => assert (Hst : stable same_out m) by repeat out_step
      end.
      by rewrite (stable_run _ _ _ _ _ Hst Hval). }
    assert (Hout2 : stdout w2 = stdout w).
    { match type of Hval with
      | ?m _ = _ => assert (Hst : stable same_out m) by repeat out_step
      end.
      by rewrite (stable_run _ _ _ _ _ Hst Hval). }
    apply bind_inv in Hrun as [(e & Hget & _)|(verbose & w0 & Hget & Hrun)].
    { by rewrite (stable_run same_out _ _ _ _ (stable_getattr _ _) Hget). }
    apply getattr_ok_inv in Hget as [_ ->].
    apply bind_inv in Hrun as [(e & Hprint & _)|([] & w3 & _ & [=])].
    by destruct (truthy verbose).
Qed.

(** X18.  The energy that [energy_estimation] returns is the expectation
    value that the backend gives for the active qubit Hamiltonian and the
    circuit of the ansatz after its parameters were updated with an array of
    the parameters given; the call leaves the ansatz and the backend as the
    update and the evaluation left them. *)
Theorem energy_estimation_value var_params (w w' : World) (energy : float) :
  energy_estimation var_params w = (Ok energy, w') →
  ∃ a a' b b' hamiltonian c,
    attrs w !! "ansatz" = Some (VAnsatz a) ∧
    update_var_params a (np_array var_params) = (Ok (), a') ∧
    attrs w !! "backend" = Some (VBackend b) ∧
    attrs w !! "qubit_hamiltonian" = Some hamiltonian ∧
    circuit a' = Ok c ∧
    get_expectation_value b hamiltonian c = (Ok energy, b') ∧
    attrs w' !! "ansatz" = Some (VAnsatz a') ∧
    attrs w' !! "backend" = Some (VBackend b').
Proof.
  intros [a a' b b' h c verbose ? ? ? ? ? ? ? ->]%energy_estimation_ok.
  exists a, a', b, b', h, c. cbn [attrs]. split_and!; [done..| |].
  - rewrite lookup_insert_ne by done. apply lookup_insert_eq.
  - apply lookup_insert_eq.
Qed.

End OutputMore.

Section ResourcesMore.
Context `{Collaborators} `{!CircuitInfo} `{!Optimizers}.

Lemma ansatz_circuit_pure : stable eq ansatz_circuit.
Proof. unfold ansatz_circuit. repeat stable_step. Qed.

Lemma ansatz_circuit_ok (w w' : World) c :
  ansatz_circuit w = (Ok c, w') →
  w' = w ∧ ∃ a, attrs w !! "ansatz" = Some (VAnsatz a) ∧ circuit a = Ok c.
Proof.
  unfold ansatz_circuit. intros Hrun.
  apply bind_ok_inv in Hrun as (ansatz & ? & [Hansatz ->]%getattr_ok_inv & Hrun).
  destruct ansatz; try discriminate. apply call_ok_inv in Hrun as [Hc ->].
  split; [done|]. by exists a.
Qed.

(** X19.  [get_resources] reads and assigns nothing: it leaves the world as it
    was, whether it returns or raises.  When it returns, the dictionary has
    the six entries of the source, in this order: the number of terms of the
    active qubit Hamiltonian, the width, size and CNOT count of the ansatz
    circuit, the number of its variational gates, and the length of
    [initial_var_params]. *)
Theorem get_resources_reads (w : World) :
  (get_resources w).2 = w ∧
  ∀ resources,
    (get_resources w).1 = Ok resources →
    ∃ q a c n_cnot params n,
      attrs w !! "qubit_hamiltonian" = Some (VQubitOp q) ∧
      attrs w !! "ansatz" = Some (VAnsatz a) ∧ circuit a = Ok c ∧
      subscript (circuit_counts c) "CNOT" = Ok n_cnot ∧
      attrs w !! "initial_var_params" = Some params ∧ py_len params = Ok n ∧
      resources =
        VDict [("qubit_hamiltonian_terms", VInt (terms_len (terms q)));
               ("circuit_width", circuit_width c);
               ("circuit_gates", circuit_size c);
               ("circuit_2qubit_gates", n_cnot);
               ("circuit_var_gates", VInt (n_variational_gates c));
               ("vqe_variational_parameters", VInt n)].
Proof.
  assert (Hpure : stable eq get_resources).
  { unfold get_resources.
    repeat first [apply ansatz_circuit_pure | stable_step | progress cbn zeta]. }
  split; [symmetry; apply Hpure|].
  intros resources Hres.
  destruct (get_resources w) as [r w'] eqn:Hrun. cbn in Hres. subst r.
  unfold get_resources in Hrun.
  apply bind_ok_inv in Hrun as (qh & ? & [Hqh ->]%getattr_ok_inv & Hrun).
  apply bind_ok_inv in Hrun as (n_terms & w0 & Hterms & Hrun).
  destruct qh; try discriminate. injection Hterms as <- <-.
  apply bind_ok_inv in Hrun as (c & ? & [-> (a & Ha & Hc)]%ansatz_circuit_ok & Hrun).
  cbn zeta in Hrun.
  apply bind_ok_inv in Hrun as (c2 & ? & [-> (a2 & Ha2 & Hc2)]%ansatz_circuit_ok & Hrun).
  rewrite Ha in Ha2. injection Ha2 as <-. rewrite Hc in Hc2. injection Hc2 as <-.
  apply bind_ok_inv in Hrun as (c3 & ? & [-> (a3 & Ha3 & Hc3)]%ansatz_circuit_ok & Hrun).
  rewrite Ha in Ha3. injection Ha3 as <-. rewrite Hc in Hc3. injection Hc3 as <-.
  apply bind_ok_inv in Hrun as (n_cnot & ? & [Hcnot ->]%call_ok_inv & Hrun).
  apply bind_ok_inv in Hrun as (c4 & ? & [-> (a4 & Ha4 & Hc4)]%ansatz_circuit_ok & Hrun).
  rewrite Ha in Ha4. injection Ha4 as <-. rewrite Hc in Hc4. injection Hc4 as <-.
  cbn zeta in Hrun.
  apply bind_ok_inv in Hrun as (params & ? & [Hparams ->]%getattr_ok_inv & Hrun).
  apply bind_ok_inv in Hrun as (n & ? & [Hn ->]%call_ok_inv & Hrun).
  injection Hrun as <- _.
  by exists q, a, c, n_cnot, params, n.
Qed.

(** X20.  [get_resources] subscripts the gate counts of the circuit for
    [CNOT]: on a circuit whose counts have no such entry it raises a
    [KeyError] and returns no resources. *)
Theorem get_resources_no_cnot (w : World) q a c counts :
  attrs w !! "qubit_hamiltonian" = Some (VQubitOp q) →
  attrs w !! "ansatz" = Some (VAnsatz a) → circuit a = Ok c →
  circuit_counts c = VDict counts → "CNOT" ∉ counts.*1 →
  get_resources w = (Raise (MkError KeyError "CNOT"), w).
Proof.
  intros Hq Ha Hc Hcounts Hout.
  assert (Hcircuit : ansatz_circuit w = (Ok c, w)).
  { unfold ansatz_circuit. rewrite bind_unfold, (getattr_some _ _ _ Ha).
    unfold call. by rewrite Hc. }
  unfold get_resources.
  rewrite bind_unfold, (getattr_some _ _ _ Hq). rewrite bind_unfold. cbn [mret M_ret].
  rewrite bind_unfold, Hcircuit. cbn zeta.
  rewrite bind_unfold, Hcircuit. cbn zeta.
  rewrite bind_unfold, Hcircuit.
  rewrite bind_unfold. unfold call at 1. rewrite Hcounts.
  unfold subscript.
  destruct (list_find _ counts) as [[i [k v]]|] eqn:Hfind; [|done].
  apply list_find_Some in Hfind as (Hlook & Heq & _). cbn in Heq. subst k.
  exfalso. apply Hout. apply list_elem_of_fmap. exists ("CNOT", v).
  split; [done|]. by eapply list_elem_of_lookup_2.
Qed.

End ResourcesMore.

Lemma energy_estimation_value_witness :
  ∃ a a' b b' hamiltonian c,
    attrs toy_h2_built !! "ansatz" = Some (VAnsatz a) ∧
    update_var_params a (np_array toy_params) = (Ok (), a') ∧
    attrs toy_h2_built !! "backend" = Some (VBackend b) ∧
    attrs toy_h2_built !! "qubit_hamiltonian" = Some hamiltonian ∧
    circuit a' = Ok c ∧
    get_expectation_value b hamiltonian c = (Ok 11%float, b') ∧
    attrs (energy_estimation toy_params toy_h2_built).2 !! "ansatz" = Some (VAnsatz a') ∧
    attrs (energy_estimation toy_params toy_h2_built).2 !! "backend" = Some (VBackend b').
Proof.
  apply (energy_estimation_value toy_params toy_h2_built).
  vm_compute. reflexivity.
Defined.

Lemma get_resources_reads_witness :
  (get_resources toy_h2_built).2 = toy_h2_built.
Proof. exact (proj1 (get_resources_reads toy_h2_built)). Defined.

Lemma get_resources_no_cnot_witness :
  get_resources (build (toy_ucc1 true)).2
    = (Raise (MkError KeyError "CNOT"), (build (toy_ucc1 true)).2).
Proof.
  apply (get_resources_no_cnot (build (toy_ucc1 true)).2
           (map fst toy_hamiltonian : @QubitOp toy_types)
           (MkToyAnsatz 1 [0%float] false) [0%float] [("RZ", VInt 1)]).
  - reflexivity.
  - reflexivity.
  - reflexivity.
  - reflexivity.
  - intros Hin. apply list_elem_of_singleton in Hin. discriminate.
Defined.

(** ** [_default_optimizer] and [simulate] *)

Section Optimum.
Context `{Optimizers}.

(** X21.  The default optimizer prints after the minimizer is done, and what
    it prints is what it recorded: with [verbose] true, three lines, the
    energy that it returns, the parameters that it stored and the number of
    evaluations; with [verbose] false, nothing. *)
Theorem default_optimizer_prints func var_params (w w' : World) (v : PyVal) :
  _default_optimizer func var_params w = (Ok v, w') →
  ∃ result w1 verbose,
    minimize func var_params "SLSQP" slsqp_options w = (Ok result, w1) ∧
    attrs w1 !! "verbose" = Some verbose ∧
    v = VFloat (res_fun result) ∧
    stdout w' = (stdout w1 ++ optimum_lines verbose result)%list ∧
    estimator_calls w' = estimator_calls w1.
Proof.
  unfold _default_optimizer. intros Hrun.
  apply bind_ok_inv in Hrun as (result & w1 & Hmin & Hrun).
  apply bind_ok_inv in Hrun as ([] & ? & [= <-] & Hrun).
  apply bind_ok_inv in Hrun as ([] & ? & [= <-] & Hrun).
  apply bind_ok_inv in Hrun as (verbose & ? & [Hverbose ->]%getattr_ok_inv & Hrun).
  cbn [attrs] in Hverbose. rewrite !lookup_insert_ne in Hverbose by done.
  apply bind_ok_inv in Hrun as ([] & w2 & Hprint & [= <- <-]).
  exists result, w1, verbose. split_and!; [done..| |].
  - unfold optimum_lines. destruct (truthy verbose).
    + apply bind_ok_inv in Hprint as (e & ? & [He ->]%getattr_ok_inv & Hprint).
      cbn [attrs] in He. rewrite lookup_insert_eq in He. injection He as <-.
      apply bind_ok_inv in Hprint as ([] & ? & [= <-] & Hprint).
      apply bind_ok_inv in Hprint as (x & ? & [Hx ->]%getattr_ok_inv & Hprint).
      cbn [attrs] in Hx. rewrite lookup_insert_ne, lookup_insert_eq in Hx by done.
      injection Hx as <-.
      apply bind_ok_inv in Hprint as ([] & ? & [= <-] & [= <-]).
      cbn [stdout]. by rewrite <- !app_assoc.
    + injection Hprint as <-. cbn [stdout]. by rewrite app_nil_r.
  - destruct (truthy verbose).
    + apply bind_ok_inv in Hprint as (e & ? & [He ->]%getattr_ok_inv & Hprint).
      apply bind_ok_inv in Hprint as ([] & ? & [= <-] & Hprint).
      apply bind_ok_inv in Hprint as (x & ? & [Hx ->]%getattr_ok_inv & Hprint).
      apply bind_ok_inv in Hprint as ([] & ? & [= <-] & [= <-]). done.
    + by injection Hprint as <-.
Qed.

(** X22.  After a [build] that returns, [simulate] passes its test and calls
    the configured optimizer, on the estimator and the initial parameters
    that the ansatz returned when [build] set them. *)
Theorem build_then_simulate (w w' : World) (optimizer : PyVal) :
  build w = (Ok (), w') →
  attrs w !! "optimizer" = Some optimizer →
  ∃ params,
    attrs w' !! "initial_var_params" = Some params ∧
    simulate w' = call_optimizer optimizer energy_estimation params w'.
Proof.
  intros Hrun Hopt.
  assert (Hopt' : attrs w' !! "optimizer" = Some optimizer).
  { rewrite build_split in Hrun.
    apply bind_ok_inv in Hrun as ([] & w3 & Hobj & Hrun).
    rewrite (stable_run _ _ _ _ _ build_backend_frame Hrun) by done.
    rewrite (stable_run _ _ _ _ _ build_objects_frame Hobj); [done|].
    left. by repeat split. }
  unfold build in Hrun.
  apply bind_ok_inv in Hrun as ([] & w1 & Hh & Hrun).
  apply bind_ok_inv in Hrun as ([] & w2 & Hcheck & Hrun).
  apply bind_ok_inv in Hrun as ([] & w3 & Hansatz & Hrun).
  apply build_ansatz_ok in Hansatz as (a0 & a1 & a2 & params & given & _ & _ & _ & Ha & Hp & _).
  apply build_backend_inv in Hrun as [[_ [e [=]]]|[_ [b Hb]]].
  assert (Ha' : attrs w' !! "ansatz" = Some (VAnsatz a2)) by by rewrite Hb, lookup_insert_ne.
  assert (Hb' : attrs w' !! "backend" = Some (VBackend b)) by (rewrite Hb; apply lookup_insert_eq).
  assert (Hp' : attrs w' !! "initial_var_params" = Some params)
    by by rewrite Hb, lookup_insert_ne.
  exists params. split; [done|]. unfold simulate.
  rewrite bind_unfold, (getattr_some _ _ _ Ha'). cbn [truthy].
  rewrite bind_unfold, bind_unfold, (getattr_some _ _ _ Hb'). cbn [mret M_ret truthy negb].
  rewrite bind_unfold. cbn [mret M_ret].
  rewrite bind_unfold, (getattr_some _ _ _ Hopt').
  by rewrite bind_unfold, (getattr_some _ _ _ Hp').
Qed.

End Optimum.

Section BeforeBuild.
Context `{Collaborators} `{!CircuitInfo} `{!Optimizers}.

(** X23.  On a solver just constructed, [get_resources] and [get_rdm] raise
    the [AttributeError] of the qubit Hamiltonian, which only [build]
    creates, and change nothing. *)
Theorem reads_before_build (opt_dict : list (string * PyVal)) a out calls var_params :
  __init__ opt_dict = Ok a →
  get_resources (MkWorld a out calls) =
    (Raise (MkError AttributeError "'VQESolver' object has no attribute 'qubit_hamiltonian'"),
     MkWorld a out calls) ∧
  get_rdm var_params (MkWorld a out calls) =
    (Raise (MkError AttributeError "'VQESolver' object has no attribute 'qubit_hamiltonian'"),
     MkWorld a out calls).
Proof.
  intros Hinit.
  apply (init_absent _ _ "qubit_hamiltonian") in Hinit; [|done..].
  split.
  - unfold get_resources.
    by rewrite bind_unfold, (getattr_none _ (MkWorld a out calls) Hinit).
  - unfold get_rdm.
    by rewrite bind_unfold, (getattr_none _ (MkWorld a out calls) Hinit).
Qed.

End BeforeBuild.

Lemma default_optimizer_prints_witness :
  ∃ result w1 verbose,
    minimize energy_estimation toy_params "SLSQP" slsqp_options
      (toy_built [("molecule", VObj "H2"); ("verbose", VBool true)]) = (Ok result, w1) ∧
    attrs w1 !! "verbose" = Some verbose ∧
    VFloat 11 = VFloat (res_fun result) ∧
    stdout (_default_optimizer energy_estimation toy_params
              (toy_built [("molecule", VObj "H2"); ("verbose", VBool true)])).2
      = (stdout w1 ++ optimum_lines verbose result)%list ∧
    estimator_calls (_default_optimizer energy_estimation toy_params
                       (toy_built [("molecule", VObj "H2"); ("verbose", VBool true)])).2
      = estimator_calls w1.
Proof.
  apply (default_optimizer_prints energy_estimation toy_params
           (toy_built [("molecule", VObj "H2"); ("verbose", VBool true)])).
  vm_compute. reflexivity.
Defined.

Lemma build_then_simulate_witness :
  ∃ params,
    attrs toy_h2_built !! "initial_var_params" = Some params ∧
    simulate toy_h2_built = call_optimizer VDefaultOptimizer energy_estimation params toy_h2_built.
Proof.
  apply (build_then_simulate toy_h2 toy_h2_built VDefaultOptimizer).
  - vm_compute. reflexivity.
  - reflexivity.
Defined.

Lemma reads_before_build_witness :
  get_resources toy_h2 =
    (Raise (MkError AttributeError "'VQESolver' object has no attribute 'qubit_hamiltonian'"),
     toy_h2) ∧
  get_rdm toy_params toy_h2 =
    (Raise (MkError AttributeError "'VQESolver' object has no attribute 'qubit_hamiltonian'"),
     toy_h2).
Proof.
  exact (reads_before_build [("molecule", VObj "H2")] _ [] [] toy_params eq_refl).
Defined.
